(** * IQData readers: window addressing, block copy and BCD time register

    A shallow embedding of the format readers of [iqdata.py] (class
    [IQData]): [read_tdms], [read_iqt], [read_tiq], [read_tcap] and
    [parse_tcap_tfp], with the properties of their window arithmetic.

    Conventions of the embedding.
    - Python integers are [Z].  [int(a / b)] is a true division followed by
      a truncation; it is embedded as [Z.quot], which is what the correctly
      rounded binary64 quotient of two integers truncates to as long as the
      dividend is below 2^53 in magnitude.  Beyond that the quotient is
      rounded, and beyond the binary64 range the division raises; a
      theorem that depends on such a quotient keeps the dividend below
      2^53 (the length of an array held in memory always is).  [a % b] is
      [Z.modulo].
    - Python floats that are only stored or passed on ([fs], [center],
      the gain of a record) are exact rationals [Q]; no rounding is
      modelled.  A scale factor is kept symbolic ([scale_t]), and an array
      multiplied by it keeps its raw integer samples next to the factor.
    - An exception is a value of [exn]; a method returns [result IQData].
      Running out of memory is not modelled.
    - A file is its size and its content by offset.  A file system accepts
      every offset below 2^31 and every offset up to the size of a file it
      holds, and refuses offsets beyond a limit of its own; the theorems
      on requests keep the file pointer where it is accepted.  What external
      parsers (pyTDMS, ElementTree, the text header of an IQT file) deliver
      is an argument of the reader that uses it, so that a reader is
      described for the calls in which its header was read and parsed. *)

From Stdlib Require Import ZArith List Lia Bool QArith Strings.Byte.
From Stdlib Require String.
Import ListNotations.
Local Open Scope Z_scope.

(** ** Exceptions and results *)

Inductive exn : Type :=
| ZeroDivisionError
| KeyError
| IndexError
| ValueError
| OSError
| OverflowError.

Inductive result (A : Type) : Type :=
| Ok (a : A)
| Raise (e : exn).
Arguments Ok {A} a.
Arguments Raise {A} e.

Definition bind {A B : Type} (r : result A) (k : A -> result B) : result B :=
  match r with
  | Ok a => k a
  | Raise e => Raise e
  end.

Notation "x <- r ;; k" := (bind r (fun x => k))
  (at level 61, r at next level, right associativity).

(** ** Python arithmetic and sequences *)

(** [int(a / b)] for integers [a] and [b]. *)
Definition int_truediv (a b : Z) : result Z :=
  if b =? 0 then Raise ZeroDivisionError else Ok (Z.quot a b).

(** [a % b] for integers. *)
Definition py_mod (a b : Z) : result Z :=
  if b =? 0 then Raise ZeroDivisionError else Ok (a mod b).

Definition len {A : Type} (l : list A) : Z := Z.of_nat (length l).

(** A slice bound as Python normalises it against the length [n]. *)
Definition clip_index (n i : Z) : Z :=
  if i <? 0 then Z.max (i + n) 0 else Z.min i n.

(** [l[lo:hi]] *)
Definition py_slice {A : Type} (lo hi : Z) (l : list A) : list A :=
  let lo' := clip_index (len l) lo in
  let hi' := clip_index (len l) hi in
  firstn (Z.to_nat (hi' - lo')) (skipn (Z.to_nat lo') l).

(** [l[lo:]] *)
Definition py_slice_from {A : Type} (lo : Z) (l : list A) : list A :=
  skipn (Z.to_nat (clip_index (len l) lo)) l.

(** [d[key]] on a dictionary entry that may be absent. *)
Definition lookup {A : Type} (o : option A) : result A :=
  match o with
  | Some a => Ok a
  | None => Raise KeyError
  end.

(** [a[0]] *)
Definition index0 {A : Type} (l : list A) : result A :=
  match l with
  | x :: _ => Ok x
  | [] => Raise IndexError
  end.

(** ** Files *)

Record file : Type := mkFile {
  size : Z;                 (* os.path.getsize *)
  byte_at : Z -> byte       (* content, meaningful below [size] *)
}.

Fixpoint zseq (start : Z) (n : nat) : list Z :=
  match n with
  | O => []
  | S n' => start :: zseq (start + 1) n'
  end.

(** What [f.read(n)] returns with the file pointer at [pos]: at most [n]
    bytes, all the remaining ones for [n = -1] (written here for every
    negative [n]; [read_n] below refuses the others), none at or after
    the end. *)
Definition read_at (f : file) (pos n : Z) : list byte :=
  let avail := Z.max 0 (size f - pos) in
  let k := if n <? 0 then avail else Z.min n avail in
  map (byte_at f) (zseq pos (Z.to_nat k)).

(** [f.seek(pos)] refuses a negative offset.  (An offset that does not
    fit 64 bits, or lies beyond the limit of the file system, is refused
    too; no theorem moves the pointer there.) *)
Definition seek (pos : Z) : result Z :=
  if pos <? 0 then Raise OSError else Ok pos.

(** [f.read(n)] for a length that was computed from the request: a length
    below -1 raises [ValueError], and a length from 2^63 - 33 on, which no
    byte string can have, [OverflowError]. *)
Definition read_n (f : file) (pos n : Z) : result (list byte) :=
  if n <? -1 then Raise ValueError
  else if 2 ^ 63 - 33 <=? n then Raise OverflowError
  else Ok (read_at f pos n).

(** ** Integers that meet floats *)

(** [float(n)] of an integer: from 2^1024 - 2^970 on the nearest binary64
    value would be 2^1024, and the conversion raises [OverflowError]. *)
Definition fits_float (n : Z) : bool := Z.abs n <? 2 ^ 1024 - 2 ^ 970.

(** [n / x] for an integer [n] and a float [x], where only the exception
    matters: [n] is converted first, then [x] is compared with zero.  The
    division of two floats itself never raises. *)
Definition int_div_float (n : Z) (x : Q) : result unit :=
  if negb (fits_float n) then Raise OverflowError
  else if Qeq_bool x 0 then Raise ZeroDivisionError
  else Ok tt.

(** ** Integers in bytes *)

Definition byte_val (b : byte) : Z := Z.of_N (Byte.to_N b).

Definition to_signed (bits v : Z) : Z :=
  if v <? 2 ^ (bits - 1) then v else v - 2 ^ bits.

(** little-endian and big-endian 16-bit signed, little-endian 32-bit signed *)
Definition le_i16 (b0 b1 : byte) : Z :=
  to_signed 16 (byte_val b0 + 256 * byte_val b1).

Definition be_i16 (b0 b1 : byte) : Z :=
  to_signed 16 (256 * byte_val b0 + byte_val b1).

Definition le_i32 (b0 b1 b2 b3 : byte) : Z :=
  to_signed 32 (byte_val b0 + 256 * byte_val b1
                + 65536 * byte_val b2 + 16777216 * byte_val b3).

(** ** The reader object *)

(** A scale factor: a double that was read or written down, or the IQT
    factor [np.sqrt(np.power(10, (g + m + l) / 10) / 20 * 2)] of three
    header values, which stays symbolic. *)
Inductive scale_t : Type :=
| ScaleQ (q : Q)
| ScaleIqt (gain_offset max_input_level level_offset : Q).

(** [date_time]: the initial empty string, a string of a header, or the
    formatted local time of an epoch value. *)
Inductive date_t : Type :=
| DateEmpty
| DateStr (s : String.string)
| DateOfEpoch (ts_epoch : Q).

(** A complex array: raw (I, Q) pairs, all multiplied by [factor]. *)
Record carray : Type := mkCArray {
  samples : list (Z * Z);
  factor : scale_t
}.

(** The fields of [IQData.__init__], without the three file names, which
    no reader assigns. *)
Record IQData : Type := mkIQData {
  acq_bw : Q;
  center : Q;
  date_time : date_t;
  number_samples : Z;
  rbw : Q;
  rf_att : Q;
  fs : Q;
  span : Q;
  scale : scale_t;
  header : option (list byte);
  data_array : option carray;
  lframes : Z;
  nframes_tot : Z;
  nframes : Z;
  tdms_nSamplesPerRecord : Z;
  tdms_nRecordsPerFile : Z;
  tdms_first_rec_size : Z;
  tdms_other_rec_size : Z;
  tcap_scalers : option (list byte);
  tcap_pio : option (list byte)
}.

Definition init : IQData :=
  mkIQData 0%Q 0%Q DateEmpty 0 0%Q 0%Q 0%Q 0%Q (ScaleQ 0%Q) None None
           0 0 0 0 0 0 0 None None.

(** Assignments to one field. *)

Definition set_acq_bw v (s : IQData) : IQData :=
  mkIQData
    v (center s) (date_time s) (number_samples s) (rbw s) (rf_att s) (fs s)
    (span s) (scale s) (header s) (data_array s) (lframes s) (nframes_tot s)
    (nframes s) (tdms_nSamplesPerRecord s) (tdms_nRecordsPerFile s)
    (tdms_first_rec_size s) (tdms_other_rec_size s) (tcap_scalers s)
    (tcap_pio s).

Definition set_center v (s : IQData) : IQData :=
  mkIQData
    (acq_bw s) v (date_time s) (number_samples s) (rbw s) (rf_att s) (fs s)
    (span s) (scale s) (header s) (data_array s) (lframes s) (nframes_tot s)
    (nframes s) (tdms_nSamplesPerRecord s) (tdms_nRecordsPerFile s)
    (tdms_first_rec_size s) (tdms_other_rec_size s) (tcap_scalers s)
    (tcap_pio s).

Definition set_date_time v (s : IQData) : IQData :=
  mkIQData
    (acq_bw s) (center s) v (number_samples s) (rbw s) (rf_att s) (fs s)
    (span s) (scale s) (header s) (data_array s) (lframes s) (nframes_tot s)
    (nframes s) (tdms_nSamplesPerRecord s) (tdms_nRecordsPerFile s)
    (tdms_first_rec_size s) (tdms_other_rec_size s) (tcap_scalers s)
    (tcap_pio s).

Definition set_number_samples v (s : IQData) : IQData :=
  mkIQData
    (acq_bw s) (center s) (date_time s) v (rbw s) (rf_att s) (fs s) (span s)
    (scale s) (header s) (data_array s) (lframes s) (nframes_tot s)
    (nframes s) (tdms_nSamplesPerRecord s) (tdms_nRecordsPerFile s)
    (tdms_first_rec_size s) (tdms_other_rec_size s) (tcap_scalers s)
    (tcap_pio s).

Definition set_rbw v (s : IQData) : IQData :=
  mkIQData
    (acq_bw s) (center s) (date_time s) (number_samples s) v (rf_att s)
    (fs s) (span s) (scale s) (header s) (data_array s) (lframes s)
    (nframes_tot s) (nframes s) (tdms_nSamplesPerRecord s)
    (tdms_nRecordsPerFile s) (tdms_first_rec_size s) (tdms_other_rec_size s)
    (tcap_scalers s) (tcap_pio s).

Definition set_rf_att v (s : IQData) : IQData :=
  mkIQData
    (acq_bw s) (center s) (date_time s) (number_samples s) (rbw s) v (fs s)
    (span s) (scale s) (header s) (data_array s) (lframes s) (nframes_tot s)
    (nframes s) (tdms_nSamplesPerRecord s) (tdms_nRecordsPerFile s)
    (tdms_first_rec_size s) (tdms_other_rec_size s) (tcap_scalers s)
    (tcap_pio s).

Definition set_fs v (s : IQData) : IQData :=
  mkIQData
    (acq_bw s) (center s) (date_time s) (number_samples s) (rbw s)
    (rf_att s) v (span s) (scale s) (header s) (data_array s) (lframes s)
    (nframes_tot s) (nframes s) (tdms_nSamplesPerRecord s)
    (tdms_nRecordsPerFile s) (tdms_first_rec_size s) (tdms_other_rec_size s)
    (tcap_scalers s) (tcap_pio s).

Definition set_span v (s : IQData) : IQData :=
  mkIQData
    (acq_bw s) (center s) (date_time s) (number_samples s) (rbw s)
    (rf_att s) (fs s) v (scale s) (header s) (data_array s) (lframes s)
    (nframes_tot s) (nframes s) (tdms_nSamplesPerRecord s)
    (tdms_nRecordsPerFile s) (tdms_first_rec_size s) (tdms_other_rec_size s)
    (tcap_scalers s) (tcap_pio s).

Definition set_scale v (s : IQData) : IQData :=
  mkIQData
    (acq_bw s) (center s) (date_time s) (number_samples s) (rbw s)
    (rf_att s) (fs s) (span s) v (header s) (data_array s) (lframes s)
    (nframes_tot s) (nframes s) (tdms_nSamplesPerRecord s)
    (tdms_nRecordsPerFile s) (tdms_first_rec_size s) (tdms_other_rec_size s)
    (tcap_scalers s) (tcap_pio s).

Definition set_header v (s : IQData) : IQData :=
  mkIQData
    (acq_bw s) (center s) (date_time s) (number_samples s) (rbw s)
    (rf_att s) (fs s) (span s) (scale s) v (data_array s) (lframes s)
    (nframes_tot s) (nframes s) (tdms_nSamplesPerRecord s)
    (tdms_nRecordsPerFile s) (tdms_first_rec_size s) (tdms_other_rec_size s)
    (tcap_scalers s) (tcap_pio s).

Definition set_data_array v (s : IQData) : IQData :=
  mkIQData
    (acq_bw s) (center s) (date_time s) (number_samples s) (rbw s)
    (rf_att s) (fs s) (span s) (scale s) (header s) v (lframes s)
    (nframes_tot s) (nframes s) (tdms_nSamplesPerRecord s)
    (tdms_nRecordsPerFile s) (tdms_first_rec_size s) (tdms_other_rec_size s)
    (tcap_scalers s) (tcap_pio s).

Definition set_lframes v (s : IQData) : IQData :=
  mkIQData
    (acq_bw s) (center s) (date_time s) (number_samples s) (rbw s)
    (rf_att s) (fs s) (span s) (scale s) (header s) (data_array s) v
    (nframes_tot s) (nframes s) (tdms_nSamplesPerRecord s)
    (tdms_nRecordsPerFile s) (tdms_first_rec_size s) (tdms_other_rec_size s)
    (tcap_scalers s) (tcap_pio s).

Definition set_nframes_tot v (s : IQData) : IQData :=
  mkIQData
    (acq_bw s) (center s) (date_time s) (number_samples s) (rbw s)
    (rf_att s) (fs s) (span s) (scale s) (header s) (data_array s)
    (lframes s) v (nframes s) (tdms_nSamplesPerRecord s)
    (tdms_nRecordsPerFile s) (tdms_first_rec_size s) (tdms_other_rec_size s)
    (tcap_scalers s) (tcap_pio s).

Definition set_nframes v (s : IQData) : IQData :=
  mkIQData
    (acq_bw s) (center s) (date_time s) (number_samples s) (rbw s)
    (rf_att s) (fs s) (span s) (scale s) (header s) (data_array s)
    (lframes s) (nframes_tot s) v (tdms_nSamplesPerRecord s)
    (tdms_nRecordsPerFile s) (tdms_first_rec_size s) (tdms_other_rec_size s)
    (tcap_scalers s) (tcap_pio s).

Definition set_tcap_scalers v (s : IQData) : IQData :=
  mkIQData
    (acq_bw s) (center s) (date_time s) (number_samples s) (rbw s)
    (rf_att s) (fs s) (span s) (scale s) (header s) (data_array s)
    (lframes s) (nframes_tot s) (nframes s) (tdms_nSamplesPerRecord s)
    (tdms_nRecordsPerFile s) (tdms_first_rec_size s) (tdms_other_rec_size s)
    v (tcap_pio s).

Definition set_tcap_pio v (s : IQData) : IQData :=
  mkIQData
    (acq_bw s) (center s) (date_time s) (number_samples s) (rbw s)
    (rf_att s) (fs s) (span s) (scale s) (header s) (data_array s)
    (lframes s) (nframes_tot s) (nframes s) (tdms_nSamplesPerRecord s)
    (tdms_nRecordsPerFile s) (tdms_first_rec_size s) (tdms_other_rec_size s)
    (tcap_scalers s) v.

(** ** [read_tdms] *)

(** What pyTDMS leaves in [raw_data]: the int16 samples of the channels
    [/'RecordData'/'I'] and [/'RecordData'/'Q'] and the doubles of
    [/'RecordHeader'/'gain'], each possibly absent. *)
Record raw_data : Type := mkRaw {
  rd_I : option (list Z);
  rd_Q : option (list Z);
  rd_gain : option (list Q)
}.

(** The read loop parses with [pyTDMS.readSegment] up to [absolute_size],
    jumping over the records between the first one and [start_record].  For
    one file and one probe its outcome is a function of [start_record] and
    [absolute_size]. *)
Definition tdms_stream : Type := Z -> Z -> raw_data.

(** The window arithmetic at the head of [read_tdms]. *)
Record window : Type := mkWindow {
  total_n_bytes : Z;
  start_n_bytes : Z;
  start_record : Z;
  starting_sample_within_start_record : Z;
  n_records : Z
}.

Definition tdms_window (samples_per_record nframes lframes sframes : Z)
  : result window :=
  let total := nframes * lframes in
  let start := (sframes - 1) * lframes in
  q <- int_truediv start samples_per_record ;;
  let start_rec := q + 1 in
  off <- py_mod start samples_per_record ;;
  q' <- int_truediv (off + total) samples_per_record ;;
  let n_rec := q' + 1 in
  Ok (mkWindow total start start_rec off n_rec).

(** [if start_record + n_records > self.tdms_nRecordsPerFile] *)
Definition tdms_too_much (w : window) (records_per_file : Z) : bool :=
  start_record w + n_records w >? records_per_file.

(** One channel assigned to every second element of an array of [2 * n]
    floats: it has [n] elements, or a single one, which numpy broadcasts. *)
Definition assign_channel (n : Z) (c : list Z) : result (list Z) :=
  if len c =? n then Ok c
  else if len c =? 1 then Ok (repeat (hd 0 c) (Z.to_nat n))
  else Raise ValueError.

(** [np.zeros(2 * n)], both channels assigned, viewed as complex. *)
Definition interleave (n : Z) (ii qq : list Z) : result (list (Z * Z)) :=
  if n <? 0 then Raise ValueError
  else
    i <- assign_channel n ii ;;
    q <- assign_channel n qq ;;
    Ok (combine i q).

(** From the read loop to the end of [read_tdms]. *)
Definition tdms_convert (self : IQData) (stream : tdms_stream) (w : window)
  : result IQData :=
  let absolute_size :=
    tdms_first_rec_size self
    + (start_record w + n_records w - 2) * tdms_other_rec_size self in
  let raw := stream (start_record w) absolute_size in
  ii <- lookup (rd_I raw) ;;
  qq <- lookup (rd_Q raw) ;;
  let ii := if start_record w >? 1
            then py_slice_from (tdms_nSamplesPerRecord self) ii else ii in
  let qq := if start_record w >? 1
            then py_slice_from (tdms_nSamplesPerRecord self) qq else qq in
  let off := starting_sample_within_start_record w in
  let ii := py_slice off (off + total_n_bytes w) ii in
  let qq := py_slice off (off + total_n_bytes w) qq in
  arr <- interleave (total_n_bytes w) ii qq ;;
  gain <- lookup (rd_gain raw) ;;
  g0 <- index0 gain ;;
  let self := set_scale (ScaleQ g0) self in
  Ok (set_data_array (Some (mkCArray arr (scale self))) self).

Definition read_tdms (self : IQData) (stream : tdms_stream)
    (nframes lframes sframes : Z) : result IQData :=
  let self := set_lframes lframes self in
  let self := set_nframes nframes self in
  w <- tdms_window (tdms_nSamplesPerRecord self) nframes lframes sframes ;;
  if tdms_too_much w (tdms_nRecordsPerFile self) then Ok self
  else tdms_convert self stream w.

(** ** Integer arrays out of bytes *)

(** [np.frombuffer(ba, '>i2')] *)
Fixpoint be_i16_items (ba : list byte) : list Z :=
  match ba with
  | b0 :: b1 :: r => be_i16 b0 b1 :: be_i16_items r
  | _ => []
  end.

Definition frombuffer_be_i16 (ba : list byte) : result (list Z) :=
  if len ba mod 2 =? 0 then Ok (be_i16_items ba) else Raise ValueError.

(** [np.fromstring(ba, dtype='<i4')] *)
Fixpoint le_i32_items (ba : list byte) : list Z :=
  match ba with
  | b0 :: b1 :: b2 :: b3 :: r => le_i32 b0 b1 b2 b3 :: le_i32_items r
  | _ => []
  end.

Definition fromstring_le_i32 (ba : list byte) : result (list Z) :=
  if len ba mod 4 =? 0 then Ok (le_i32_items ba) else Raise ValueError.

(** [a.view(complex)] on an array of reals: consecutive pairs. *)
Fixpoint pairs (a : list Z) : list (Z * Z) :=
  match a with
  | re :: im :: r => (re, im) :: pairs r
  | _ => []
  end.

Definition view_complex (a : list Z) : result (list (Z * Z)) :=
  if len a mod 2 =? 0 then Ok (pairs a) else Raise ValueError.

(** ** [parse_tcap_tfp] *)

(** The local variables of [parse_tcap_tfp] when it formats its result. *)
Record tfp_time : Type := mkTfp {
  days : Z;
  hours : Z;
  minutes : Z;
  seconds : Q;
  ts_epoch : Q
}.

(** [tfp[i]] *)
Definition item (tfp : list Z) (i : nat) : result Z :=
  match nth_error tfp i with
  | Some v => Ok v
  | None => Raise IndexError
  end.

(** [(b >> k) & 0x17] *)
Definition nib (b k : Z) : Z := Z.land (Z.shiftr b k) 0x17.

Definition parse_tcap_tfp (ba : list byte) : result tfp_time :=
  let tfp := map byte_val ba in
  t3 <- item tfp 3 ;;
  let dh := nib t3 0 in
  t4 <- item tfp 4 ;;
  let dt := nib t4 4 in
  let du := nib t4 0 in
  t5 <- item tfp 5 ;;
  let ht := nib t5 4 in
  let hu := nib t5 0 in
  t6 <- item tfp 6 ;;
  let mt := nib t6 4 in
  let mu := nib t6 0 in
  t7 <- item tfp 7 ;;
  let st := nib t7 4 in
  let su := nib t7 0 in
  t8 <- item tfp 8 ;;
  let sem1 := nib t8 4 in
  let sem2 := nib t8 0 in
  t9 <- item tfp 9 ;;
  let sem3 := nib t9 4 in
  let sem4 := nib t9 0 in
  t10 <- item tfp 10 ;;
  let sem5 := nib t10 4 in
  let sem6 := nib t10 0 in
  t11 <- item tfp 11 ;;
  let sem7 := nib t11 4 in
  let days := dh * 100 + dt * 10 + du in
  let hours := ht * 10 + hu in
  let minutes := mt * 10 + mu in
  let seconds :=
    (inject_Z (st * 10 + su)
     + inject_Z sem1 * (1 # 10) + inject_Z sem2 * (1 # 100)
     + inject_Z sem3 * (1 # 1000) + inject_Z sem4 * (1 # 10000)
     + inject_Z sem5 * (1 # 100000) + inject_Z sem6 * (1 # 1000000)
     + inject_Z sem7 * (1 # 10000000))%Q in
  let ts_epoch :=
    (seconds + inject_Z (60 * (minutes + 60 * (hours + 24 * days))))%Q in
  Ok (mkTfp days hours minutes seconds ts_epoch).

(** ** [read_tcap] *)

Definition BLOCK_HEADER_SIZE : Z := 88.
Definition BLOCK_DATA_SIZE : Z := 2 ^ 17.
Definition BLOCK_SIZE : Z := BLOCK_HEADER_SIZE + BLOCK_DATA_SIZE.

(** One turn of the copy loop on the file pointer and the bytearray: a jump
    of 88 when the pointer is a multiple of 131160, then [f.read(1)]. *)
Definition tcap_step (f : file) (st : Z * list byte) : Z * list byte :=
  let (pos, ba) := st in
  let pos := if pos mod 131160 =? 0 then pos + 88 else pos in
  let chunk := read_at f pos 1 in
  (pos + len chunk, ba ++ chunk).

(** [for i in range(n)] *)
Fixpoint tcap_loop (f : file) (n : nat) (st : Z * list byte)
  : Z * list byte :=
  match n with
  | O => st
  | S n' => tcap_loop f n' (tcap_step f st)
  end.

(** [f.seek(BLOCK_HEADER_SIZE + start_n_bytes)] and the loop. *)
Definition tcap_copy (f : file) (start total : Z) : result (list byte) :=
  pos <- seek (BLOCK_HEADER_SIZE + start) ;;
  Ok (snd (tcap_loop f (Z.to_nat total) (pos, []))).

Definition read_tcap (self : IQData) (f : file)
    (nframes lframes sframes : Z) : result IQData :=
  let self := set_lframes lframes self in
  let self := set_nframes nframes self in
  let filesize := size f in
  if negb (filesize =? 15625 * BLOCK_SIZE) then Ok self
  else
    let tfp := read_at f 0 12 in
    let pio := read_at f 12 12 in
    let scalers := read_at f 24 64 in
    t <- parse_tcap_tfp tfp ;;
    let self := set_date_time (DateOfEpoch (ts_epoch t)) self in
    let self := set_tcap_pio (Some pio) self in
    let self := set_tcap_scalers (Some scalers) self in
    let self := set_fs (312500 # 1) self in
    let self := set_center (160000 # 1) self in
    let self := set_scale (ScaleQ (625 # 10000)) self in
    tot <- int_truediv (15625 * 32768) nframes ;;
    let self := set_nframes_tot tot self in
    let self := set_number_samples (15625 * 32768) self in
    let self := set_span (312500 # 1) self in
    let total := 4 * nframes * lframes in
    let start := 4 * (sframes - 1) * lframes in
    ba <- tcap_copy f start total ;;
    ints <- frombuffer_be_i16 ba ;;
    arr <- view_complex ints ;;
    Ok (set_data_array (Some (mkCArray arr (scale self))) self).

(** ** [read_iqt] *)

(** The text header of an IQT file as [read_iqt] uses it: where the binary
    section starts ([data_offset]: one digit, the size field and the header),
    the header text, and the entries of [header_dic] after [int] and
    [float]. *)
Record iqt_header : Type := mkIqtHeader {
  iqt_data_offset : Z;
  iqt_text : list byte;
  FFTPoints : Z;
  MaxInputLevel : Q;
  LevelOffset : Q;
  FrameLength : Q;
  GainOffset : Q;
  CenterFrequency : Q;
  Span : Q;
  ValidFrames : Z;
  DateTime : String.string
}.

(** [frame_type.itemsize]: a header of ten int16 and one int32, then
    [2 * 1024] int16 of data. *)
Definition frame_header_itemsize : Z := 10 * 2 + 4.
Definition frame_itemsize : Z := frame_header_itemsize + 2 * (2 * 1024).

(** The data of one frame, Q before I on file, as complex samples:
    [temp_array[::2], temp_array[1::2] = data[1::2], data[::2]]. *)
Fixpoint swap_pairs (d : list byte) : list (Z * Z) :=
  match d with
  | q0 :: q1 :: i0 :: i1 :: r => (le_i16 i0 i1, le_i16 q0 q1) :: swap_pairs r
  | _ => []
  end.

Definition frame_samples (fr : list byte) : list (Z * Z) :=
  swap_pairs (skipn (Z.to_nat frame_header_itemsize) fr).

(** The samples of the first [k] frames of [ba], in order. *)
Fixpoint frames_samples (k : nat) (ba : list byte) : list (Z * Z) :=
  match k with
  | O => []
  | S k' =>
      frame_samples (firstn (Z.to_nat frame_itemsize) ba)
      ++ frames_samples k' (skipn (Z.to_nat frame_itemsize) ba)
  end.

Definition read_iqt (self : IQData) (f : file) (h : iqt_header)
    (nframes lframes sframes : Z) : result IQData :=
  let self := set_lframes lframes self in
  let self := set_nframes nframes self in
  let data_offset := iqt_data_offset h in
  let self := set_header (Some (iqt_text h)) self in
  let fft_points := FFTPoints h in
  let self := set_center (CenterFrequency h) self in
  let self := set_span (Span h) self in
  let self := set_nframes_tot (ValidFrames h) self in
  let self := set_date_time (DateStr (DateTime h)) self in
  let self := set_number_samples (nframes_tot self * fft_points) self in
  (* self.fs = fft_points / frame_length *)
  u <- int_div_float fft_points (FrameLength h) ;;
  let self := set_fs (inject_Z fft_points / FrameLength h)%Q self in
  let self :=
    set_scale (ScaleIqt (GainOffset h) (MaxInputLevel h) (LevelOffset h))
              self in
  let total := nframes * frame_itemsize in
  let start := (sframes - 1) * frame_itemsize in
  if 1024 * nframes <? 0 then Raise ValueError
  else
    pos <- seek (data_offset + start) ;;
    ba <- read_n f pos total ;;
    if negb (len ba mod frame_itemsize =? 0) then Raise ValueError
    else
      let got := frames_samples (Z.to_nat (len ba / frame_itemsize)) ba in
      let arr :=
        got ++ repeat (0, 0) (Z.to_nat (1024 * nframes) - length got) in
      Ok (set_data_array (Some (mkCArray arr (scale self))) self).

(** ** [read_tiq] *)

(** What [read_tiq] takes from the first line of the file, which it reads
    in text mode, and from the XML header: the offset of the data, and for
    each element it looks for the value of the last one found, if any. *)
Record tiq_xml : Type := mkTiqXml {
  tiq_data_offset : Z;
  AcquisitionBandwidth : option Q;
  Frequency : option Q;
  tiq_DateTime : option String.string;
  NumberSamples : option Z;
  ResolutionBandwidth : option Q;
  RFAttenuation : option Q;
  SamplingFrequency : option Q;
  tiq_Span : option Q;
  Scaling : option Q
}.

(** [for elem in ...: self.x = value]: the field changes when an element
    was found. *)
Definition assign_if {A : Type} (o : option A) (set : A -> IQData -> IQData)
    (self : IQData) : IQData :=
  match o with
  | Some v => set v self
  | None => self
  end.

(** [self.fs] is a float, as [__init__] and the XML header leave it. *)
Definition read_tiq (self : IQData) (f : file) (x : tiq_xml)
    (nframes lframes sframes : Z) : result IQData :=
  let self := set_lframes lframes self in
  let self := set_nframes nframes self in
  let data_offset := tiq_data_offset x in
  let ba := read_at f 0 data_offset in
  let self := assign_if (AcquisitionBandwidth x) set_acq_bw self in
  let self := assign_if (Frequency x) set_center self in
  let self :=
    assign_if (tiq_DateTime x) (fun s => set_date_time (DateStr s)) self in
  let self := assign_if (NumberSamples x) set_number_samples self in
  let self := assign_if (ResolutionBandwidth x) set_rbw self in
  let self := assign_if (RFAttenuation x) set_rf_att self in
  let self := assign_if (SamplingFrequency x) set_fs self in
  let self := assign_if (tiq_Span x) set_span self in
  let self :=
    assign_if (Scaling x) (fun q => set_scale (ScaleQ q)) self in
  (* the log lines format [lframes / self.fs] and three more quotients *)
  u <- int_div_float lframes (fs self) ;;
  tot <- int_truediv (number_samples self) lframes ;;
  let self := set_nframes_tot tot self in
  u <- int_div_float (number_samples self) (fs self) ;;
  u <- int_div_float (sframes * lframes) (fs self) ;;
  u <- int_div_float (nframes * lframes) (fs self) ;;
  let self := set_header (Some ba) self in
  let total := 8 * nframes * lframes in
  let start := 8 * (sframes - 1) * lframes in
  pos <- seek (data_offset + start) ;;
  ba <- read_n f pos total ;;
  ints <- fromstring_le_i32 ba ;;
  arr <- view_complex ints ;;
  Ok (set_data_array (Some (mkCArray arr (scale self))) self).

(** ** States and streams for examples *)

(** The geometry fields and the number of samples as the probe
    [read_tdms_information] leaves them. *)
Definition with_geometry (samples_per_record records_per_file
                          first_rec_size other_rec_size : Z) (s : IQData)
  : IQData :=
  mkIQData
    (acq_bw s) (center s) (date_time s)
    (samples_per_record * records_per_file) (rbw s) (rf_att s)
    (fs s) (span s) (scale s) (header s) (data_array s) (lframes s)
    (nframes_tot s) (nframes s) samples_per_record records_per_file
    first_rec_size other_rec_size (tcap_scalers s) (tcap_pio s).

(** A stream in which pyTDMS found no channel. *)
Definition empty_stream : tdms_stream := fun _ _ => mkRaw None None None.

(** A probed file of two records of 1024 samples. *)
Definition two_records : IQData := with_geometry 1024 2 3000 2100 init.

(** What the read loop leaves when it has parsed both records of
    [two_records]. *)
Definition both_records : tdms_stream := fun _ _ =>
  mkRaw (Some (zseq 0 2048)) (Some (zseq 0 2048)) (Some [1%Q]).

(** A probed file of ten records of four samples: the first record ends at
    byte 100, every other one is 40 bytes long. *)
Definition ten_records : IQData := with_geometry 4 10 100 40 init.

(** What the read loop leaves for that file when sample [k] is [k] on the I
    channel and [- k] on the Q channel: the first record when it jumps, then
    the records from [start_record] to the one that ends at
    [absolute_size]. *)
Definition ramp_stream : tdms_stream := fun start_record absolute_size =>
  let last_record := (absolute_size - 100) / 40 + 1 in
  let idx :=
    if start_record >? 1
    then zseq 0 4
         ++ zseq (4 * (start_record - 1))
                 (Z.to_nat (4 * (last_record - start_record + 1)))
    else zseq 0 (Z.to_nat (4 * last_record)) in
  mkRaw (Some idx) (Some (map Z.opp idx)) (Some [(1 # 2)%Q]).

(** The same file cut after its third record. *)
Definition three_records : IQData := with_geometry 4 3 100 40 init.

(** ** The block grid of a TCAP file, as the format lays it out *)

(** Where byte [q] of the payload lies in the file: every block is a header
    of 88 bytes followed by 131072 bytes of payload. *)
Definition payload_pos (q : Z) : Z :=
  q / BLOCK_DATA_SIZE * BLOCK_SIZE + BLOCK_HEADER_SIZE + q mod BLOCK_DATA_SIZE.

(** The payload bytes that lie before file offset [p]. *)
Definition payload_before (p : Z) : Z :=
  p / 131160 * 131072 + Z.max 0 (p mod 131160 - 88).

(** The file pointer stands ready for byte [q] of the payload: on it, or on
    the head of the block that starts with it. *)
Definition ready_for (q pos : Z) : Prop :=
  pos = payload_pos q
  \/ (q mod BLOCK_DATA_SIZE = 0 /\ pos = q / BLOCK_DATA_SIZE * BLOCK_SIZE).

(** The bytes [start, start + n) of the payload. *)
Definition payload_range (f : file) (start : Z) (n : nat) : list byte :=
  map (fun q => byte_at f (payload_pos q)) (zseq start n).

Definition byte_of (z : Z) : byte :=
  match Byte.of_N (Z.to_N (z mod 256)) with
  | Some b => b
  | None => x00
  end.

(** A file of 15625 blocks in which every header byte is [xff] and byte [q]
    of the payload is [q mod 251]. *)
Definition marked_file : file :=
  mkFile (15625 * BLOCK_SIZE)
         (fun p => if p mod BLOCK_SIZE <? BLOCK_HEADER_SIZE then xff
                   else byte_of (payload_before p mod 251)).

(** Files of 15626 and of 15624 such blocks. *)
Definition one_block_more : file :=
  mkFile (15626 * BLOCK_SIZE) (byte_at marked_file).

Definition one_block_less : file :=
  mkFile (15624 * BLOCK_SIZE) (byte_at marked_file).

(** ** The time register, as the table of [parse_tcap_tfp] lays it out *)

(** The two BCD digits of a byte: bits 7-4 and bits 3-0. *)
Definition hi_digit (b : byte) : Z := byte_val b / 16.
Definition lo_digit (b : byte) : Z := byte_val b mod 16.

(** The digits of a register that the table defines, from the hundreds of
    days in byte 3 to the 1E-7 seconds in byte 11. *)
Definition used_digits (ba : list byte) : list Z :=
  match skipn 3 ba with
  | b3 :: b4 :: b5 :: b6 :: b7 :: b8 :: b9 :: b10 :: b11 :: _ =>
      [lo_digit b3; hi_digit b4; lo_digit b4; hi_digit b5; lo_digit b5;
       hi_digit b6; lo_digit b6; hi_digit b7; lo_digit b7;
       hi_digit b8; lo_digit b8; hi_digit b9; lo_digit b9;
       hi_digit b10; lo_digit b10; hi_digit b11]
  | _ => []
  end.

(** Day 005, 12:30:45.1234567 in BCD. *)
Definition register_005_12_30_45 : list byte :=
  [x00; x00; x00; x00; x05; x12; x30; x45; x12; x34; x56; x70].

(** A register whose units of seconds are the nibble 0xF. *)
Definition register_f_seconds : list byte :=
  [x00; x00; x00; x00; x00; x00; x00; x0f; x00; x00; x00; x00].

(** ** Files of zeros for the fixed-frame and the flat readers *)

Definition zero_file (n : Z) : file := mkFile n (fun _ => x00).

(** An IQT file of two valid frames after a text header of 100 bytes. *)
Definition iqt_two_frames : iqt_header :=
  mkIqtHeader 100 [] 1024 0%Q 0%Q (1 # 1000)%Q 0%Q (1000000 # 1)%Q
              (1000 # 1)%Q 2 String.EmptyString.

Definition iqt_two_frames_file : file := zero_file (100 + 2 * 4120).

(** A TIQ file of 4096 samples after an XML header of 100 bytes. *)
Definition tiq_4096 : tiq_xml :=
  mkTiqXml 100 None None None (Some 4096) None None (Some (1000 # 1)%Q)
           None (Some (1 # 1000)%Q).

Definition tiq_4096_file : file := zero_file (100 + 8 * 4096).

(** ** What the read loop of [read_tdms] parses *)

(** Of a channel [c] of the whole file: the first record when the loop
    jumps ([start_record > 1]), then the [n_records] records from
    [start_record] on. *)
Definition records_read (samples_per_record : Z) (w : window)
    (c : list Z) : list Z :=
  (if start_record w >? 1
   then firstn (Z.to_nat samples_per_record) c else [])
  ++ firstn (Z.to_nat (n_records w * samples_per_record))
       (skipn (Z.to_nat ((start_record w - 1) * samples_per_record)) c).

From Stdlib Require Import Lqa.

(** ** [text_header_parser] *)

(** A Python [str]: its code points. *)
Definition pystr : Type := list N.

Import String.StringSyntax.
Delimit Scope string_scope with string.

(** A literal of ASCII characters. *)
Definition lit (s : String.string) : pystr :=
  map Ascii.N_of_ascii (String.list_ascii_of_string s).
Arguments lit s%_string.

(** [c.isspace()] for one character, as [str.strip()] tests it. *)
Definition is_space (c : N) : bool :=
  (((9 <=? c) && (c <=? 13)) || ((28 <=? c) && (c <=? 32))
   || (c =? 133) || (c =? 160) || (c =? 5760)
   || ((8192 <=? c) && (c <=? 8202))
   || (c =? 8232) || (c =? 8233) || (c =? 8239) || (c =? 8287)
   || (c =? 12288))%N.

Fixpoint lstrip (s : pystr) : pystr :=
  match s with
  | c :: r => if is_space c then lstrip r else s
  | [] => []
  end.

(** [s.strip()] *)
Definition strip (s : pystr) : pystr := rev (lstrip (rev (lstrip s))).

(** [line.partition("=")[::2]]: what stands before and after the first
    [=], the whole line and the empty string when there is none. *)
Fixpoint partition_eq (line : pystr) : pystr * pystr :=
  match line with
  | [] => ([], [])
  | c :: r =>
      if (c =? 61)%N then ([], r)
      else let (name, var) := partition_eq r in (c :: name, var)
  end.

(** [s.replace(c, new)] for a pattern of one character. *)
Definition replace_char (c : N) (new : pystr) (s : pystr) : pystr :=
  flat_map (fun x => if (x =? c)%N then new else [x]) s.

Fixpoint starts_with (sub s : pystr) : bool :=
  match sub, s with
  | [], _ => true
  | a :: sub', b :: s' => (a =? b)%N && starts_with sub' s'
  | _ :: _, [] => false
  end.

(** [sub in s] *)
Fixpoint contains (sub s : pystr) : bool :=
  starts_with sub s
  || match s with
     | [] => false
     | _ :: r => contains sub r
     end.

(** A dictionary with string keys, in insertion order. *)
Definition dict : Type := list (pystr * pystr).

(** [d[k] = v] *)
Fixpoint dict_set (k v : pystr) (d : dict) : dict :=
  match d with
  | [] => [(k, v)]
  | (k', v') :: r =>
      if list_eq_dec N.eq_dec k k' then (k', v) :: r
      else (k', v') :: dict_set k v r
  end.

(** [d.get(k)]; [d[k]] raises [KeyError] where it is [None]. *)
Fixpoint dict_get (k : pystr) (d : dict) : option pystr :=
  match d with
  | [] => None
  | (k', v') :: r =>
      if list_eq_dec N.eq_dec k k' then Some v' else dict_get k r
  end.

(** The value of one line, from [var.strip()] to the last [replace]. *)
Definition header_value (var : pystr) : pystr :=
  let var := strip var in
  let var := replace_char 107 (lit "e3") var in
  let var := replace_char 109 (lit "e-3") var in
  let var := replace_char 117 (lit "e-6") var in
  if negb (contains (lit "PM") var) && negb (contains (lit "AM") var)
  then replace_char 77 (lit "e6") var
  else var.

(** The body of the loop for one line. *)
Definition header_line (dic : dict) (line : pystr) : dict :=
  let (name, var) := partition_eq line in
  dict_set (strip name) (header_value var) dic.

Definition text_header_parser (str : list pystr) : dict :=
  fold_left header_line str [].

(** The key and the value that the loop takes from one line. *)
Definition line_key (line : pystr) : pystr := strip (fst (partition_eq line)).

Definition line_value (line : pystr) : pystr :=
  header_value (snd (partition_eq line)).

(** A header for examples. *)
Definition header_example : list pystr :=
  [lit "CenterFrequency = 1.5k"; lit "Span=10M";
   lit "DateTime= 2015/08/20 01:02:03 PM "; lit "Span = 5m"].

(** A character that is no white space and none of the letters that
    [text_header_parser] looks at. *)
Definition unit_free (c : N) : Prop :=
  is_space c = false /\ ~ In c (lit "kmuMAP").

(** ** [read_wav] *)

(** [wavfile.read] is taken for what it returns on a 16-bit stereo file:
    the sampling rate and the frames, each a left and a right sample, which
    [astype(np.float32).view(np.complex64)[:, 0]] turns into one complex
    sample each.  [ctime] is the text of
    [time.ctime(os.path.getctime(self.filename))].  The array is not
    scaled: its factor is 1. *)
Definition read_wav (self : IQData) (rate : Z) (data : list (Z * Z))
    (ctime : String.string) (nframes lframes sframes : Z) : result IQData :=
  let self := set_lframes lframes self in
  let self := set_nframes nframes self in
  let all_data := data in
  let self := set_fs (inject_Z rate) self in
  let self := set_center 0%Q self in
  let self := set_number_samples (len all_data) self in
  tot <- int_truediv (len all_data) lframes ;;
  let self := set_nframes_tot tot self in
  let self := set_date_time (DateStr ctime) self in
  let total_n_bytes := nframes * lframes in
  let start_n_bytes := (sframes - 1) * lframes in
  let window :=
    py_slice start_n_bytes (start_n_bytes + total_n_bytes) all_data in
  Ok (set_data_array (Some (mkCArray window (ScaleQ 1))) self).

(** ** [read_tdms] on channels that end early *)

(** What the read loop leaves when the channels of [ten_records] end
    after [k] samples. *)
Definition cut_stream (k : nat) : tdms_stream := fun _ _ =>
  mkRaw (Some (zseq 0 k)) (Some (map Z.opp (zseq 0 k))) (Some [(1 # 2)%Q]).

(** ** [shift_cut_data_time] *)

(** [x[:-val], x[val:]] *)
Definition shift_cut_data_time {A : Type} (x : list A) (val : Z)
  : list A * list A :=
  (py_slice 0 (- val) x, py_slice_from val x).

(** ** The samples of the formats, byte by byte *)

(** The complex sample that starts at offset [p] of an IQT frame: Q in the
    first two bytes, I in the next two, both little-endian. *)
Definition iqt_sample (f : file) (p : Z) : Z * Z :=
  (le_i16 (byte_at f (p + 2)) (byte_at f (p + 3)),
   le_i16 (byte_at f p) (byte_at f (p + 1))).

(** The 1024 samples of frame [i] of an IQT file whose frames start at
    [data_offset]. *)
Definition iqt_frame (f : file) (data_offset i : Z) : list (Z * Z) :=
  map (fun j => iqt_sample f (data_offset + frame_itemsize * i
                              + frame_header_itemsize + 4 * j))
      (zseq 0 1024).

(** Sample [j] of a TIQ file whose samples start at [data_offset]: I in
    four bytes, Q in the next four, both little-endian. *)
Definition tiq_sample (f : file) (data_offset j : Z) : Z * Z :=
  let p := data_offset + 8 * j in
  (le_i32 (byte_at f p) (byte_at f (p + 1)) (byte_at f (p + 2))
          (byte_at f (p + 3)),
   le_i32 (byte_at f (p + 4)) (byte_at f (p + 5)) (byte_at f (p + 6))
          (byte_at f (p + 7))).

(** A file whose byte at offset [p] is [p mod 256]. *)
Definition counting_file (n : Z) : file := mkFile n byte_of.

(** The sampling frequency [read_tiq] has after the XML header. *)
Definition tiq_fs (self : IQData) (x : tiq_xml) : Q :=
  match SamplingFrequency x with
  | Some v => v
  | None => fs self
  end.

(** The number of samples [read_tiq] has after the XML header. *)
Definition tiq_number_samples (self : IQData) (x : tiq_xml) : Z :=
  match NumberSamples x with
  | Some v => v
  | None => number_samples self
  end.

(** A TIQ header without a sampling frequency. *)
Definition tiq_no_fs : tiq_xml :=
  mkTiqXml 100 None None None (Some 4096) None None None None
           (Some (1 # 1000)%Q).

(** Day 024, 06:20:04.0204060 in BCD. *)
Definition register_024_06_20_04 : list byte :=
  [x00; x00; x00; x00; x24; x06; x20; x04; x02; x04; x06; x00].

(** The time of sixteen decoded digits, as the last lines of
    [parse_tcap_tfp] compute it. *)
Definition tfp_of_digits (dh dt du ht hu mt mu st su
                          sem1 sem2 sem3 sem4 sem5 sem6 sem7 : Z)
  : tfp_time :=
  let days := dh * 100 + dt * 10 + du in
  let hours := ht * 10 + hu in
  let minutes := mt * 10 + mu in
  let seconds :=
    (inject_Z (st * 10 + su)
     + inject_Z sem1 * (1 # 10) + inject_Z sem2 * (1 # 100)
     + inject_Z sem3 * (1 # 1000) + inject_Z sem4 * (1 # 10000)
     + inject_Z sem5 * (1 # 100000) + inject_Z sem6 * (1 # 1000000)
     + inject_Z sem7 * (1 # 10000000))%Q in
  let ts_epoch :=
    (seconds + inject_Z (60 * (minutes + 60 * (hours + 24 * days))))%Q in
  mkTfp days hours minutes seconds ts_epoch.

(** * Properties *)

(** ** Arithmetic and slices *)

Lemma int_truediv_floor (a b : Z) :
  0 <= a -> 0 < b -> int_truediv a b = Ok (a / b).
Proof.
  intros Ha Hb. unfold int_truediv.
  destruct (Z.eqb_spec b 0) as [E | _]; [lia |].
  now rewrite Z.quot_div_nonneg.
Qed.

Lemma py_mod_pos (a b : Z) : 0 < b -> py_mod a b = Ok (a mod b).
Proof.
  intros Hb. unfold py_mod.
  destruct (Z.eqb_spec b 0); [lia | reflexivity].
Qed.

Lemma len_nonneg {A : Type} (l : list A) : 0 <= len l.
Proof. unfold len. lia. Qed.

Lemma len_app {A : Type} (l l' : list A) : len (l ++ l') = len l + len l'.
Proof. unfold len. rewrite length_app. lia. Qed.

Lemma clip_index_inside (n i : Z) : 0 <= i <= n -> clip_index n i = i.
Proof.
  intros H. unfold clip_index.
  destruct (Z.ltb_spec i 0); lia.
Qed.

Lemma py_slice_inside {A : Type} (lo n : Z) (l : list A) :
  0 <= lo -> 0 <= n -> lo + n <= len l ->
  py_slice lo (lo + n) l = firstn (Z.to_nat n) (skipn (Z.to_nat lo) l).
Proof.
  intros Hlo Hn Hl. unfold py_slice.
  rewrite !clip_index_inside by lia.
  do 2 f_equal. lia.
Qed.

Lemma len_firstn_skipn {A : Type} (lo n : Z) (l : list A) :
  0 <= lo -> 0 <= n -> lo + n <= len l ->
  len (firstn (Z.to_nat n) (skipn (Z.to_nat lo) l)) = n.
Proof.
  intros Hlo Hn Hl. unfold len in *.
  rewrite length_firstn, length_skipn. lia.
Qed.

Lemma py_slice_from_app {A : Type} (k : Z) (l l' : list A) :
  len l = k -> py_slice_from k (l ++ l') = l'.
Proof.
  intros Hk. unfold py_slice_from.
  rewrite clip_index_inside by
    (rewrite len_app; pose proof (len_nonneg l); pose proof (len_nonneg l'); lia).
  unfold len in Hk. subst k. rewrite Nat2Z.id.
  rewrite skipn_app, skipn_all, Nat.sub_diag. reflexivity.
Qed.

Lemma assign_channel_exact (n : Z) (c : list Z) :
  len c = n -> assign_channel n c = Ok c.
Proof.
  intros H. unfold assign_channel.
  destruct (Z.eqb_spec (len c) n); [reflexivity | contradiction].
Qed.

Lemma len_combine {A B : Type} (l : list A) (l' : list B) (n : Z) :
  len l = n -> len l' = n -> len (combine l l') = n.
Proof.
  unfold len. intros H H'. rewrite length_combine. lia.
Qed.

(** ** The window of [read_tdms] *)

Lemma tdms_window_valid (spr N L S : Z) :
  0 < spr -> 0 <= L -> 0 <= N -> 1 <= S ->
  tdms_window spr N L S =
  Ok (mkWindow (N * L) ((S - 1) * L)
        ((S - 1) * L / spr + 1)
        (((S - 1) * L) mod spr)
        ((((S - 1) * L) mod spr + N * L) / spr + 1)).
Proof.
  intros Hspr HL HN HS. unfold tdms_window.
  assert (0 <= (S - 1) * L) by nia.
  assert (0 <= N * L) by nia.
  pose proof (Z.mod_pos_bound ((S - 1) * L) spr Hspr).
  rewrite int_truediv_floor by lia. cbn [bind].
  rewrite py_mod_pos by lia. cbn [bind].
  rewrite int_truediv_floor by lia. reflexivity.
Qed.

Lemma read_tdms_unfold (self : IQData) (stream : tdms_stream)
    (N L S : Z) (w : window) :
  tdms_window (tdms_nSamplesPerRecord self) N L S = Ok w ->
  read_tdms self stream N L S =
  if tdms_too_much w (tdms_nRecordsPerFile self)
  then Ok (set_nframes N (set_lframes L self))
  else tdms_convert (set_nframes N (set_lframes L self)) stream w.
Proof.
  intros Hw. unfold read_tdms. cbn [set_nframes set_lframes
    tdms_nSamplesPerRecord tdms_nRecordsPerFile].
  rewrite Hw. reflexivity.
Qed.

(** C7, as stated, fails: for records of 1024 samples the request
    (L=1024, N=2, S=2) makes [read_tdms] count three records, not two. *)
Lemma window_1024_2_2_not_two_records :
  tdms_window 1024 2 1024 2 = Ok (mkWindow 2048 1024 2 0 3)
  /\ n_records (mkWindow 2048 1024 2 0 3) <> 2.
Proof. split; [reflexivity | discriminate]. Qed.

(** C7, amended: for records of 1024 samples the request (L=1024, N=2, S=2)
    starts in record 2 counted from one (unit 1 counted from zero), at
    offset 0 in it, and needs three records. *)
Theorem window_1024_2_2_three_records :
  exists w,
    tdms_window 1024 2 1024 2 = Ok w
    /\ start_record w = 2
    /\ start_record w - 1 = 1024 / 1024
    /\ starting_sample_within_start_record w = 0
    /\ n_records w = 3.
Proof. eexists. repeat split. Qed.

(** C2, as stated, fails: with two records of 1024 samples the request
    (L=1024, N=2, S=1) has start unit 0 and three units needed, more than
    the file has, and [read_tdms] does not fail: it returns, no exception
    raised. *)
Lemma window_exceeding_raises_no_error :
  tdms_window 1024 2 1024 1 = Ok (mkWindow 2048 0 1 0 3)
  /\ 0 / 1024 + ((0 mod 1024 + 2 * 1024) / 1024 + 1)
     > tdms_nRecordsPerFile two_records
  /\ read_tdms two_records empty_stream 2 1024 1
     = Ok (set_nframes 2 (set_lframes 1024 two_records)).
Proof. repeat split. Qed.

(** Where the units of a request end with the last record of the file,
    [read_tdms] returns without reading as well: its test counts the start
    record from one.  With two records of 1024 samples the request
    (L=1024, N=1, S=1) has start unit 0 and two units needed. *)
Lemma window_guard_counts_from_one :
  tdms_window 1024 1 1024 1 = Ok (mkWindow 1024 0 1 0 2)
  /\ 0 / 1024 + ((0 mod 1024 + 1 * 1024) / 1024 + 1) = 2
  /\ tdms_too_much (mkWindow 1024 0 1 0 2) 2 = true
  /\ read_tdms two_records empty_stream 1 1024 1
     = Ok (set_nframes 1 (set_lframes 1024 two_records)).
Proof. repeat split. Qed.

(** C2, amended: for a request with L > 0, N > 0, S >= 1 and
    (S-1+N)*L < 2^53, and records of [samples_per_unit > 0] samples,
    [read_tdms] computes total = N*L, start = (S-1)*L, the start record
    counted from one [start div samples_per_unit + 1], the offset
    [start mod samples_per_unit] in it and
    [(offset + total) div samples_per_unit + 1] records.  When start unit
    plus units needed exceeds the records of the file it returns without
    reading, and without an error; when start unit plus units needed
    stays below the records of the file it goes on to read. *)
Theorem tdms_window_addressing (self : IQData) (stream : tdms_stream)
    (N L S : Z) :
  0 < tdms_nSamplesPerRecord self -> 0 < L -> 0 < N -> 1 <= S ->
  (S - 1 + N) * L < 2 ^ 53 ->
  let samples_per_unit := tdms_nSamplesPerRecord self in
  let units_per_file := tdms_nRecordsPerFile self in
  let total_bytes_needed := N * L in
  let start_offset := (S - 1) * L in
  let start_unit := start_offset / samples_per_unit in
  let intra_unit_offset := start_offset mod samples_per_unit in
  let units_needed :=
    (intra_unit_offset + total_bytes_needed) / samples_per_unit + 1 in
  let w := mkWindow total_bytes_needed start_offset (start_unit + 1)
                    intra_unit_offset units_needed in
  tdms_window samples_per_unit N L S = Ok w
  /\ (start_unit + units_needed > units_per_file ->
      read_tdms self stream N L S = Ok (set_nframes N (set_lframes L self)))
  /\ (start_unit + units_needed < units_per_file ->
      read_tdms self stream N L S
      = tdms_convert (set_nframes N (set_lframes L self)) stream w).
Proof.
  intros Hspr HL HN HS _. cbv zeta.
  assert (Hw := tdms_window_valid (tdms_nSamplesPerRecord self) N L S
                  Hspr (Z.lt_le_incl _ _ HL) (Z.lt_le_incl _ _ HN) HS).
  split; [exact Hw |].
  rewrite (read_tdms_unfold self stream N L S _ Hw).
  unfold tdms_too_much. cbn [start_record n_records].
  split; intros Hcmp.
  - destruct (Z.gtb_spec
      ((S - 1) * L / tdms_nSamplesPerRecord self + 1
       + ((((S - 1) * L) mod tdms_nSamplesPerRecord self + N * L)
            / tdms_nSamplesPerRecord self + 1))
      (tdms_nRecordsPerFile self)); [reflexivity | lia].
  - destruct (Z.gtb_spec
      ((S - 1) * L / tdms_nSamplesPerRecord self + 1
       + ((((S - 1) * L) mod tdms_nSamplesPerRecord self + N * L)
            / tdms_nSamplesPerRecord self + 1))
      (tdms_nRecordsPerFile self)); [lia | reflexivity].
Qed.

Lemma tdms_window_addressing_witness :
  (tdms_window 4 2 2 4 = Ok (mkWindow 4 6 2 2 2)
   /\ read_tdms ten_records ramp_stream 2 2 4
      = tdms_convert (set_nframes 2 (set_lframes 2 ten_records)) ramp_stream
          (mkWindow 4 6 2 2 2))
  /\ (tdms_window 1024 2 1024 1 = Ok (mkWindow 2048 0 1 0 3)
      /\ read_tdms two_records both_records 2 1024 1
         = Ok (set_nframes 2 (set_lframes 1024 two_records))).
Proof.
  split.
  - destruct (tdms_window_addressing ten_records ramp_stream 2 2 4)
      as (Hw & _ & Hgo); try (cbn; lia).
    split; [exact Hw |].
    apply Hgo. vm_compute. reflexivity.
  - destruct (tdms_window_addressing two_records both_records 2 1024 1)
      as (Hw & Hstop & _); try (cbn; lia).
    split; [exact Hw |].
    apply Hstop. vm_compute. reflexivity.
Defined.

(** C6, as stated, fails: a request that exceeds the two records of the file
    leaves [data_array] alone, but not the whole reader: [lframes] and
    [nframes] were assigned before the test. *)
Lemma read_tdms_exceeding_assigns_frames :
  tdms_window (tdms_nSamplesPerRecord two_records) 2 1024 1
    = Ok (mkWindow 2048 0 1 0 3)
  /\ (1 + 3 >? tdms_nRecordsPerFile two_records) = true
  /\ read_tdms two_records empty_stream 2 1024 1
     = Ok (set_nframes 2 (set_lframes 1024 two_records))
  /\ lframes two_records = 0
  /\ lframes (set_nframes 2 (set_lframes 1024 two_records)) = 1024
  /\ set_nframes 2 (set_lframes 1024 two_records) <> two_records.
Proof. repeat split. discriminate. Qed.

(** C6, amended: when the record window of a request exceeds the records of
    the file (start_record + n_records > tdms_nRecordsPerFile), [read_tdms]
    returns without producing a buffer: [data_array] is unchanged, and so is
    every other field except [lframes] and [nframes], which hold the
    requested values. *)
Theorem read_tdms_exceeding_window (self : IQData) (stream : tdms_stream)
    (N L S : Z) (w : window) :
  tdms_window (tdms_nSamplesPerRecord self) N L S = Ok w ->
  start_record w + n_records w > tdms_nRecordsPerFile self ->
  exists self',
    read_tdms self stream N L S = Ok self'
    /\ data_array self' = data_array self
    /\ lframes self' = L
    /\ nframes self' = N
    /\ set_nframes (nframes self) (set_lframes (lframes self) self') = self.
Proof.
  intros Hw Hex.
  exists (set_nframes N (set_lframes L self)).
  rewrite (read_tdms_unfold self stream N L S w Hw).
  unfold tdms_too_much.
  destruct (Z.gtb_spec (start_record w + n_records w)
              (tdms_nRecordsPerFile self)); [| lia].
  destruct self; repeat split.
Qed.

Lemma read_tdms_exceeding_window_witness :
  exists self',
    read_tdms two_records empty_stream 2 1024 1 = Ok self'
    /\ data_array self' = data_array two_records
    /\ lframes self' = 1024
    /\ nframes self' = 2
    /\ set_nframes (nframes two_records)
         (set_lframes (lframes two_records) self') = two_records.
Proof.
  apply (read_tdms_exceeding_window two_records empty_stream 2 1024 1
           (mkWindow 2048 0 1 0 3)).
  - reflexivity.
  - vm_compute. reflexivity.
Defined.

(** ** The samples [read_tdms] returns *)

(** With the channels made of what the loop parsed of the first record
    when it jumped, and of the records of the window, the conversion
    returns the window: the samples from the offset on, in number as asked
    for. *)
Lemma tdms_convert_samples (self : IQData) (stream : tdms_stream)
    (w : window) (first_I rest_I first_Q rest_Q : list Z)
    (g : Q) (gains : list Q) :
  0 <= starting_sample_within_start_record w ->
  0 <= total_n_bytes w ->
  stream (start_record w)
         (tdms_first_rec_size self
          + (start_record w + n_records w - 2) * tdms_other_rec_size self)
    = mkRaw (Some (first_I ++ rest_I)) (Some (first_Q ++ rest_Q))
            (Some (g :: gains)) ->
  len first_I
    = (if start_record w >? 1 then tdms_nSamplesPerRecord self else 0) ->
  len first_Q
    = (if start_record w >? 1 then tdms_nSamplesPerRecord self else 0) ->
  starting_sample_within_start_record w + total_n_bytes w <= len rest_I ->
  starting_sample_within_start_record w + total_n_bytes w <= len rest_Q ->
  let window_of (channel : list Z) :=
    firstn (Z.to_nat (total_n_bytes w))
      (skipn (Z.to_nat (starting_sample_within_start_record w)) channel) in
  tdms_convert self stream w
  = Ok (set_data_array
          (Some (mkCArray (combine (window_of rest_I) (window_of rest_Q))
                          (ScaleQ g)))
          (set_scale (ScaleQ g) self)).
Proof.
  intros Hoff Htot Hraw HfI HfQ HI HQ window_of. unfold tdms_convert.
  rewrite Hraw. cbn [rd_I rd_Q rd_gain lookup bind].
  assert (Hdrop : forall first rest : list Z,
            len first
              = (if start_record w >? 1
                 then tdms_nSamplesPerRecord self else 0) ->
            (if start_record w >? 1
             then py_slice_from (tdms_nSamplesPerRecord self) (first ++ rest)
             else first ++ rest) = rest).
  { intros first rest Hf. destruct (start_record w >? 1).
    - now apply py_slice_from_app.
    - destruct first; [reflexivity | unfold len in Hf; cbn in Hf; lia]. }
  rewrite !Hdrop by assumption.
  rewrite !py_slice_inside by lia.
  unfold interleave.
  destruct (Z.ltb_spec (total_n_bytes w) 0); [lia |].
  rewrite !assign_channel_exact by (apply len_firstn_skipn; lia).
  reflexivity.
Qed.

Lemma firstn_skipn_records {A : Type} (a off n m : nat) (l : list A) :
  (off + n <= m)%nat ->
  firstn n (skipn off (firstn m (skipn a l))) = firstn n (skipn (a + off) l).
Proof.
  intros H.
  rewrite skipn_firstn_comm, firstn_firstn, skipn_skipn.
  f_equal; [lia | f_equal; lia].
Qed.

(** The samples at which a record window begins and ends are those of the
    request. *)
Lemma tdms_window_bounds (spr N L S : Z) (w : window) :
  0 < spr -> 0 <= L -> 0 <= N -> 1 <= S ->
  tdms_window spr N L S = Ok w ->
  total_n_bytes w = N * L
  /\ 0 <= total_n_bytes w
  /\ 0 <= starting_sample_within_start_record w < spr
  /\ 1 <= start_record w
  /\ (start_record w - 1) * spr + starting_sample_within_start_record w
     = (S - 1) * L
  /\ starting_sample_within_start_record w + total_n_bytes w
     < n_records w * spr.
Proof.
  intros Hspr HL HN HS Hw.
  rewrite (tdms_window_valid spr N L S Hspr HL HN HS) in Hw.
  injection Hw as <-.
  cbn [total_n_bytes starting_sample_within_start_record start_record
       n_records].
  assert (0 <= (S - 1) * L) by nia.
  assert (0 <= N * L) by nia.
  pose proof (Z.mod_pos_bound ((S - 1) * L) spr Hspr).
  pose proof (Z.div_mod ((S - 1) * L) spr ltac:(lia)).
  pose proof (Z.div_pos ((S - 1) * L) spr ltac:(lia) Hspr).
  pose proof (Z.mul_succ_div_gt (((S - 1) * L) mod spr + N * L) spr Hspr).
  repeat split; lia.
Qed.

(** C4, as stated, fails: on a file of three records of four samples the
    request (L=4, N=2, S=2) is the window of the records 2 and 3, its start
    record is 2, and [read_tdms] returns without a buffer: nothing is
    dropped or sliced, because the window counts a spare record beyond the
    end of the file. *)
Lemma read_tdms_records_2_3_refused :
  tdms_window (tdms_nSamplesPerRecord three_records) 2 4 2
    = Ok (mkWindow 8 4 2 0 3)
  /\ (2 - 1) * 4 = (2 - 1) * tdms_nSamplesPerRecord three_records
  /\ (2 - 1) * 4 + 2 * 4 = 3 * tdms_nSamplesPerRecord three_records
  /\ (2 - 1) + 3 > tdms_nRecordsPerFile three_records
  /\ read_tdms three_records ramp_stream 2 4 2
     = Ok (set_nframes 2 (set_lframes 4 three_records))
  /\ data_array (set_nframes 2 (set_lframes 4 three_records)) = None.
Proof. repeat split. Qed.

(** C4, amended: in [read_tdms], for a request with (S-1+N)*L < 2^53 whose
    start record is beyond the first one and whose record window passes
    the test (start_record + n_records <= tdms_nRecordsPerFile), when the
    read loop leaves in the I and in the Q channel the first record
    followed by samples that reach to the end of the window, and a gain:
    the first parsed record (as many samples as a record holds, on either
    channel) is dropped, and what is returned are the N*L samples that
    follow the offset [(S-1)*L mod tdms_nSamplesPerRecord] in the records
    read after it. *)
Theorem read_tdms_drops_first_record (self : IQData) (stream : tdms_stream)
    (N L S : Z) (w : window)
    (first_I rest_I first_Q rest_Q : list Z) (g : Q) (gains : list Q) :
  0 < tdms_nSamplesPerRecord self -> 0 <= L -> 0 <= N -> 1 <= S ->
  (S - 1 + N) * L < 2 ^ 53 ->
  tdms_window (tdms_nSamplesPerRecord self) N L S = Ok w ->
  1 < start_record w ->
  start_record w + n_records w <= tdms_nRecordsPerFile self ->
  stream (start_record w)
         (tdms_first_rec_size self
          + (start_record w + n_records w - 2) * tdms_other_rec_size self)
    = mkRaw (Some (first_I ++ rest_I)) (Some (first_Q ++ rest_Q))
            (Some (g :: gains)) ->
  len first_I = tdms_nSamplesPerRecord self ->
  len first_Q = tdms_nSamplesPerRecord self ->
  starting_sample_within_start_record w + N * L <= len rest_I ->
  starting_sample_within_start_record w + N * L <= len rest_Q ->
  let off := ((S - 1) * L) mod tdms_nSamplesPerRecord self in
  let window_of (channel : list Z) :=
    firstn (Z.to_nat (N * L)) (skipn (Z.to_nat off) channel) in
  exists self',
    read_tdms self stream N L S = Ok self'
    /\ starting_sample_within_start_record w = off
    /\ data_array self'
       = Some (mkCArray (combine (window_of rest_I) (window_of rest_Q))
                        (ScaleQ g))
    /\ len (combine (window_of rest_I) (window_of rest_Q)) = N * L.
Proof.
  intros Hspr HL HN HS _ Hw Hsr Hfit Hraw HfI HfQ HI HQ off window_of.
  destruct (tdms_window_bounds _ N L S w Hspr HL HN HS Hw)
    as (Htot & Htot0 & Hoff & _ & Hstart & _).
  assert (Eoff : starting_sample_within_start_record w = off).
  { rewrite (tdms_window_valid _ N L S Hspr HL HN HS) in Hw.
    now injection Hw as <-. }
  rewrite (read_tdms_unfold self stream N L S w Hw).
  unfold tdms_too_much.
  destruct (Z.gtb_spec (start_record w + n_records w)
              (tdms_nRecordsPerFile self)); [lia |].
  assert (Hgt : (start_record w >? 1) = true) by (apply Z.gtb_lt; lia).
  rewrite (tdms_convert_samples (set_nframes N (set_lframes L self))
             stream w first_I rest_I first_Q rest_Q g gains);
    cbn [set_nframes set_lframes tdms_nSamplesPerRecord tdms_first_rec_size
         tdms_other_rec_size]; rewrite ?Hgt; try lia; try assumption.
  cbv zeta. rewrite Htot, Eoff. fold (window_of rest_I) (window_of rest_Q).
  eexists. split; [reflexivity |].
  split; [reflexivity |]. split; [reflexivity |].
  apply len_combine; unfold window_of; apply len_firstn_skipn; lia.
Qed.

(** A window over records 2 and 3 of [ten_records]: two frames of two
    samples from frame 4 on are the samples 6 to 9 of the file. *)
Lemma read_tdms_drops_first_record_witness :
  exists self',
    read_tdms ten_records ramp_stream 2 2 4 = Ok self'
    /\ 2 = ((4 - 1) * 2) mod 4
    /\ data_array self'
       = Some (mkCArray [(6, -6); (7, -7); (8, -8); (9, -9)]
                        (ScaleQ (1 # 2)))
    /\ len [(6, -6); (7, -7); (8, -8); (9, -9)] = 2 * 2.
Proof.
  apply (read_tdms_drops_first_record ten_records ramp_stream 2 2 4
           (mkWindow 4 6 2 2 2)
           [0; 1; 2; 3] [4; 5; 6; 7; 8; 9; 10; 11]
           [0; -1; -2; -3] [-4; -5; -6; -7; -8; -9; -10; -11]
           (1 # 2)%Q []);
    try reflexivity; vm_compute; congruence.
Defined.

(** X11: for a request with (S-1+N)*L < 2^53 that passes the record
    test, when the loop leaves in each channel what [records_read]
    describes, [read_tdms] returns the samples (S-1)*L to (S-1)*L + N*L of
    the file, multiplied by the gain of the first record header. *)
Lemma read_tdms_window_of_file (self : IQData) (stream : tdms_stream)
    (N L S : Z) (w : window) (all_I all_Q : list Z) (g : Q) (gains : list Q) :
  0 < tdms_nSamplesPerRecord self -> 0 <= L -> 0 <= N -> 1 <= S ->
  (S - 1 + N) * L < 2 ^ 53 ->
  tdms_window (tdms_nSamplesPerRecord self) N L S = Ok w ->
  start_record w + n_records w <= tdms_nRecordsPerFile self ->
  len all_I = tdms_nSamplesPerRecord self * tdms_nRecordsPerFile self ->
  len all_Q = tdms_nSamplesPerRecord self * tdms_nRecordsPerFile self ->
  stream (start_record w)
         (tdms_first_rec_size self
          + (start_record w + n_records w - 2) * tdms_other_rec_size self)
    = mkRaw (Some (records_read (tdms_nSamplesPerRecord self) w all_I))
            (Some (records_read (tdms_nSamplesPerRecord self) w all_Q))
            (Some (g :: gains)) ->
  let window_of (channel : list Z) :=
    firstn (Z.to_nat (N * L)) (skipn (Z.to_nat ((S - 1) * L)) channel) in
  read_tdms self stream N L S
  = Ok (set_data_array
          (Some (mkCArray (combine (window_of all_I) (window_of all_Q))
                          (ScaleQ g)))
          (set_scale (ScaleQ g) (set_nframes N (set_lframes L self)))).
Proof.
  intros Hspr HL HN HS _ Hw Hfit HlI HlQ Hraw window_of.
  destruct (tdms_window_bounds _ N L S w Hspr HL HN HS Hw)
    as (Htot & Htot0 & Hoff & Hsr & Hstart & Hrec).
  rewrite (read_tdms_unfold self stream N L S w Hw).
  unfold tdms_too_much.
  destruct (Z.gtb_spec (start_record w + n_records w)
              (tdms_nRecordsPerFile self)); [lia |].
  assert (Hlead : forall c : list Z,
            len c = tdms_nSamplesPerRecord self * tdms_nRecordsPerFile self ->
            len (if start_record w >? 1
                 then firstn (Z.to_nat (tdms_nSamplesPerRecord self)) c
                 else [])
            = (if start_record w >? 1
               then tdms_nSamplesPerRecord self else 0)).
  { intros c Hc. destruct (start_record w >? 1); [| reflexivity].
    unfold len in *. rewrite length_firstn. nia. }
  assert (Hrest : forall c : list Z,
            len c = tdms_nSamplesPerRecord self * tdms_nRecordsPerFile self ->
            starting_sample_within_start_record w + total_n_bytes w
            <= len (firstn
                      (Z.to_nat (n_records w * tdms_nSamplesPerRecord self))
                      (skipn (Z.to_nat ((start_record w - 1)
                                        * tdms_nSamplesPerRecord self)) c))).
  { intros c Hc. unfold len in *. rewrite length_firstn, length_skipn. nia. }
  unfold records_read in Hraw.
  rewrite (tdms_convert_samples (set_nframes N (set_lframes L self))
             stream w _ _ _ _ g gains
             ltac:(lia) Htot0 Hraw (Hlead _ HlI) (Hlead _ HlQ)
             (Hrest _ HlI) (Hrest _ HlQ)).
  cbv zeta. rewrite !firstn_skipn_records by lia.
  unfold window_of. rewrite Htot.
  replace (Z.to_nat ((start_record w - 1) * tdms_nSamplesPerRecord self)
           + Z.to_nat (starting_sample_within_start_record w))%nat
    with (Z.to_nat ((S - 1) * L)) by nia.
  reflexivity.
Qed.

(** ** Arrays out of bytes *)

Lemma be_i16_items_length (n : nat) (ba : list byte) :
  length ba = (2 * n)%nat -> length (be_i16_items ba) = n.
Proof.
  revert ba. induction n as [| n IH]; intros ba H.
  - destruct ba; [reflexivity | discriminate].
  - destruct ba as [| b0 [| b1 r]]; try (cbn in H; lia).
    cbn [be_i16_items length]. f_equal. apply IH. cbn in H. lia.
Qed.

Lemma le_i32_items_length (n : nat) (ba : list byte) :
  length ba = (4 * n)%nat -> length (le_i32_items ba) = n.
Proof.
  revert ba. induction n as [| n IH]; intros ba H.
  - destruct ba; [reflexivity | discriminate].
  - destruct ba as [| b0 [| b1 [| b2 [| b3 r]]]]; try (cbn in H; lia).
    cbn [le_i32_items length]. f_equal. apply IH. cbn in H. lia.
Qed.

Lemma pairs_length (n : nat) (a : list Z) :
  length a = (2 * n)%nat -> length (pairs a) = n.
Proof.
  revert a. induction n as [| n IH]; intros a H.
  - destruct a; [reflexivity | discriminate].
  - destruct a as [| x [| y r]]; try (cbn in H; lia).
    cbn [pairs length]. f_equal. apply IH. cbn in H. lia.
Qed.

Lemma zseq_length (start : Z) (n : nat) : length (zseq start n) = n.
Proof.
  revert start. induction n as [| n IH]; intros start; cbn; [| rewrite IH];
    reflexivity.
Qed.

Lemma read_at_inside (f : file) (pos n : Z) :
  0 <= n -> pos + n <= size f ->
  read_at f pos n = map (byte_at f) (zseq pos (Z.to_nat n)).
Proof.
  intros Hn Hfit. unfold read_at.
  destruct (Z.ltb_spec n 0); [lia |].
  do 3 f_equal. lia.
Qed.

Lemma len_read_at_inside (f : file) (pos n : Z) :
  0 <= n -> pos + n <= size f -> len (read_at f pos n) = n.
Proof.
  intros Hn Hfit. rewrite read_at_inside by assumption.
  unfold len. rewrite length_map, zseq_length. lia.
Qed.

(** ** The copy loop of [read_tcap] *)

Ltac block_consts :=
  unfold payload_pos, BLOCK_SIZE, BLOCK_HEADER_SIZE, BLOCK_DATA_SIZE in *;
  change (2 ^ 17) with 131072 in *;
  change (88 + 131072) with 131160 in *.

Lemma tcap_step_inside (f : file) (pos : Z) (ba : list byte) :
  (if pos mod 131160 =? 0 then pos + 88 else pos) < size f ->
  tcap_step f (pos, ba) =
  let pos' := if pos mod 131160 =? 0 then pos + 88 else pos in
  (pos' + 1, ba ++ [byte_at f pos']).
Proof.
  intros H. unfold tcap_step. cbv zeta.
  rewrite read_at_inside by lia. reflexivity.
Qed.

(** As long as payload is left before the end of a file of whole blocks,
    every turn of the loop appends one byte. *)
Lemma tcap_loop_length (f : file) (blocks : Z) (n : nat) :
  size f = blocks * 131160 ->
  forall (pos : Z) (ba : list byte),
    88 <= pos ->
    payload_before pos + Z.of_nat n <= blocks * 131072 ->
    len (snd (tcap_loop f n (pos, ba))) = len ba + Z.of_nat n.
Proof.
  intros Hsize. induction n as [| n IH]; intros pos ba Hpos Hfit.
  - cbn. lia.
  - cbn [tcap_loop].
    assert (Hin : (if pos mod 131160 =? 0 then pos + 88 else pos) < size f).
    { rewrite Hsize. unfold payload_before in Hfit.
      destruct (Z.eqb_spec (pos mod 131160) 0) as [E | E];
        Z.div_mod_to_equations; lia. }
    rewrite tcap_step_inside by exact Hin. cbv zeta.
    rewrite IH.
    + rewrite len_app. unfold len. cbn [length]. lia.
    + destruct (Z.eqb_spec (pos mod 131160) 0); lia.
    + unfold payload_before in *.
      destruct (Z.eqb_spec (pos mod 131160) 0) as [E | E];
        Z.div_mod_to_equations; lia.
Qed.

Lemma tcap_copy_length (f : file) (start total : Z) :
  size f = 15625 * BLOCK_SIZE ->
  0 <= start -> 0 <= total -> start + total <= 15625 * BLOCK_DATA_SIZE ->
  exists ba, tcap_copy f start total = Ok ba /\ len ba = total.
Proof.
  intros Hsize Hs Ht Hfit. unfold tcap_copy, seek.
  destruct (Z.ltb_spec (BLOCK_HEADER_SIZE + start) 0);
    [unfold BLOCK_HEADER_SIZE in *; lia |].
  cbn [bind]. eexists. split; [reflexivity |].
  block_consts.
  rewrite (tcap_loop_length f 15625); try lia.
  - unfold len. cbn [length]. lia.
  - unfold payload_before. Z.div_mod_to_equations. lia.
Qed.

Lemma parse_tcap_tfp_ok (ba : list byte) :
  (12 <= length ba)%nat -> exists t, parse_tcap_tfp ba = Ok t.
Proof.
  intros H.
  do 12 (destruct ba as [| ? ba]; [cbn in H; lia |]).
  eexists. reflexivity.
Qed.

Lemma view_be_i16_length (ba : list byte) (n : Z) :
  0 <= n -> len ba = 4 * n ->
  exists arr,
    (ints <- frombuffer_be_i16 ba ;; view_complex ints) = Ok arr
    /\ len arr = n.
Proof.
  intros Hn Hlen. unfold frombuffer_be_i16.
  replace (len ba mod 2) with 0 by (rewrite Hlen; Z.div_mod_to_equations; lia).
  cbn [Z.eqb bind]. unfold view_complex.
  assert (Hitems : length (be_i16_items ba) = (2 * Z.to_nat n)%nat)
    by (apply be_i16_items_length; unfold len in Hlen; lia).
  replace (len (be_i16_items ba) mod 2) with 0
    by (unfold len; rewrite Hitems; Z.div_mod_to_equations; lia).
  cbn [Z.eqb]. eexists. split; [reflexivity |].
  unfold len. rewrite (pairs_length (Z.to_nat n)); [lia | exact Hitems].
Qed.

(** C5: [read_tcap] compares the size of the file with
    15625 * (88 + 131072) before it opens it.  On any other size, such as
    one block more or one block less, it returns at once: no buffer is
    produced, [data_array] and every field but [lframes] and [nframes] keep
    their values.  On that size it goes on: the header fields are taken
    and, for a window inside the capture, a buffer of N*L samples is
    there. *)
Theorem read_tcap_checks_file_size (self : IQData) (f : file) (N L S : Z) :
  (size f <> 15625 * (88 + 131072) ->
   read_tcap self f N L S = Ok (set_nframes N (set_lframes L self))
   /\ data_array (set_nframes N (set_lframes L self)) = data_array self)
  /\ 15626 * (88 + 131072) <> 15625 * (88 + 131072)
  /\ 15624 * (88 + 131072) <> 15625 * (88 + 131072)
  /\ (size f = 15625 * (88 + 131072) ->
      0 < N -> 0 < L -> 1 <= S -> (S - 1 + N) * L <= 15625 * 32768 ->
      exists self' arr,
        read_tcap self f N L S = Ok self'
        /\ data_array self' = Some arr
        /\ len (samples arr) = N * L
        /\ tcap_pio self' = Some (read_at f 12 12)
        /\ tcap_scalers self' = Some (read_at f 24 64)
        /\ number_samples self' = 15625 * 32768).
Proof.
  split; [| split; [lia | split; [lia |]]].
  - intros Hsize. unfold read_tcap.
    destruct (Z.eqb_spec (size f) (15625 * BLOCK_SIZE)) as [E | _];
      [block_consts; lia |].
    split; [reflexivity | destruct self; reflexivity].
  - intros Hsize HN HL HS Hfit. unfold read_tcap.
    destruct (Z.eqb_spec (size f) (15625 * BLOCK_SIZE)) as [_ | E];
      [| block_consts; lia].
    cbn [negb].
    destruct (parse_tcap_tfp_ok (read_at f 0 12)) as [t Ht].
    { assert (H12 := len_read_at_inside f 0 12).
      unfold len in H12. lia. }
    rewrite Ht. cbn [bind].
    rewrite int_truediv_floor by lia. cbn [bind].
    destruct (tcap_copy_length f (4 * (S - 1) * L) (4 * N * L))
      as (ba & Hcopy & Hlen); try (block_consts; nia).
    rewrite Hcopy. cbn [bind].
    destruct (view_be_i16_length ba (N * L)) as (arr & Hview & Harr);
      try nia.
    unfold bind in Hview.
    destruct (frombuffer_be_i16 ba) as [ints |]; [| discriminate].
    cbn [bind]. rewrite Hview.
    eexists. eexists. split; [reflexivity |].
    cbn. repeat split. exact Harr.
Qed.

Lemma read_tcap_checks_file_size_witness :
  read_tcap init one_block_more 10 1024 1
    = Ok (set_nframes 10 (set_lframes 1024 init))
  /\ read_tcap init one_block_less 10 1024 1
    = Ok (set_nframes 10 (set_lframes 1024 init))
  /\ exists self' arr,
       read_tcap init marked_file 10 1024 1 = Ok self'
       /\ data_array self' = Some arr
       /\ len (samples arr) = 10 * 1024
       /\ tcap_pio self' = Some (read_at marked_file 12 12)
       /\ tcap_scalers self' = Some (read_at marked_file 24 64)
       /\ number_samples self' = 15625 * 32768.
Proof.
  split; [| split].
  - apply (read_tcap_checks_file_size init one_block_more 10 1024 1).
    vm_compute. discriminate.
  - apply (read_tcap_checks_file_size init one_block_less 10 1024 1).
    vm_compute. discriminate.
  - apply (read_tcap_checks_file_size init marked_file 10 1024 1);
      [reflexivity | lia | lia | lia | lia].
Defined.

(** From a pointer that is ready for byte [q] the loop copies the payload
    from [q] on, jumping over the header of every block it enters. *)
Lemma tcap_loop_payload (f : file) (blocks : Z) (n : nat) :
  size f = blocks * BLOCK_SIZE ->
  forall (q pos : Z) (ba : list byte),
    0 <= q -> q + Z.of_nat n <= blocks * BLOCK_DATA_SIZE ->
    ready_for q pos ->
    snd (tcap_loop f n (pos, ba)) = ba ++ payload_range f q n.
Proof.
  intros Hsize. induction n as [| n IH]; intros q pos ba Hq Hfit Hready.
  - cbn. now rewrite app_nil_r.
  - cbn [tcap_loop].
    assert (Hjump : (if pos mod 131160 =? 0 then pos + 88 else pos)
                    = payload_pos q).
    { destruct Hready as [-> | [Hz ->]]; block_consts.
      - destruct (Z.eqb_spec
          ((q / 131072 * 131160 + 88 + q mod 131072) mod 131160) 0);
          [Z.div_mod_to_equations; lia | reflexivity].
      - destruct (Z.eqb_spec ((q / 131072 * 131160) mod 131160) 0);
          Z.div_mod_to_equations; lia. }
    assert (Hin : payload_pos q < size f).
    { rewrite Hsize. block_consts. Z.div_mod_to_equations. lia. }
    rewrite tcap_step_inside by (rewrite Hjump; exact Hin).
    cbv zeta. rewrite Hjump.
    rewrite (IH (q + 1)); [| lia | lia |].
    + unfold payload_range. cbn [zseq map].
      now rewrite <- app_assoc.
    + unfold ready_for. block_consts.
      destruct (Z.eq_dec ((q + 1) mod 131072) 0) as [E | E].
      * right. split; [exact E |]. Z.div_mod_to_equations. lia.
      * left. Z.div_mod_to_equations. lia.
Qed.

(** A window that starts in the payload of the first block, or right after
    it, is copied as the format lays it out, whatever blocks it crosses. *)
Lemma tcap_copy_from_first_block (f : file) (start total : Z) :
  size f = 15625 * BLOCK_SIZE ->
  0 <= start <= BLOCK_DATA_SIZE -> 0 <= total ->
  start + total <= 15625 * BLOCK_DATA_SIZE ->
  tcap_copy f start total = Ok (payload_range f start (Z.to_nat total)).
Proof.
  intros Hsize Hs Ht Hfit. unfold tcap_copy, seek.
  destruct (Z.ltb_spec (BLOCK_HEADER_SIZE + start) 0);
    [block_consts; lia |].
  cbn [bind]. f_equal.
  rewrite (tcap_loop_payload f 15625 _ Hsize start); [reflexivity | lia | lia |].
  unfold ready_for. block_consts.
  destruct (Z.eq_dec start 131072) as [-> | E].
  - right. split; reflexivity.
  - left. Z.div_mod_to_equations. lia.
Qed.

(** C3: a window that starts beyond the first block is not copied from
    where the payload has it.  For (N=1, L=1024, S=34) the copy of any
    capture file holds the payload from 88 bytes before the requested
    offset; for (N=1, L=1, S=32770) the four bytes copied from
    [marked_file] are bytes of the header of the second block, not the
    payload bytes 131076 to 131079, and they are what [read_tcap] leaves in
    [data_array]. *)
Theorem read_tcap_window_beyond_first_block :
  (forall f : file,
     size f = 15625 * BLOCK_SIZE ->
     tcap_copy f (4 * (34 - 1) * 1024) (4 * 1 * 1024)
     = Ok (payload_range f (4 * (34 - 1) * 1024 - 88) 4096))
  /\ tcap_copy marked_file (4 * (32770 - 1) * 1) (4 * 1 * 1)
     = Ok [xff; xff; xff; xff]
  /\ payload_range marked_file (4 * (32770 - 1) * 1) 4
     = [x36; x37; x38; x39]
  /\ exists self',
       read_tcap init marked_file 1 1 32770 = Ok self'
       /\ data_array self' = Some (mkCArray [(-1, -1)] (ScaleQ (625 # 10000))).
Proof.
  split; [| split; [| split]].
  - intros f Hsize. unfold tcap_copy, seek.
    change (BLOCK_HEADER_SIZE + 4 * (34 - 1) * 1024 <? 0) with false.
    cbn [bind]. f_equal.
    change (Z.to_nat (4 * 1 * 1024)) with 4096%nat.
    rewrite (tcap_loop_payload f 15625 4096 Hsize
               (4 * (34 - 1) * 1024 - 88));
      [reflexivity | lia | block_consts; lia | left; reflexivity].
  - vm_compute. reflexivity.
  - vm_compute. reflexivity.
  - eexists. split; vm_compute; reflexivity.
Qed.

(** ** The masks of [parse_tcap_tfp] *)

(** What the mask 0x17 keeps of the upper and of the lower digit of a
    byte: the upper digit comes out modulo 8, the lower digit modulo 8
    with 16 added when the upper digit is odd. *)
Lemma nib_upper (b : byte) : nib (byte_val b) 4 = hi_digit b mod 8.
Proof. destruct b; reflexivity. Qed.

Lemma nib_lower (b : byte) :
  nib (byte_val b) 0 = lo_digit b mod 8 + 16 * (hi_digit b mod 2).
Proof. destruct b; reflexivity. Qed.

Lemma nib_upper_small (b : byte) :
  0 <= hi_digit b <= 7 -> nib (byte_val b) 4 = hi_digit b.
Proof. intros H. rewrite nib_upper. apply Z.mod_small. lia. Qed.

Lemma nib_lower_clean (b : byte) :
  0 <= lo_digit b <= 7 -> hi_digit b mod 2 = 0 ->
  nib (byte_val b) 0 = lo_digit b.
Proof.
  intros H Heven. rewrite nib_lower, Heven, Z.mod_small; lia.
Qed.

(** X16: where the masks do no harm: on a register whose digits are in
    0-7 and whose bytes 3 to 10 have an even upper digit, the fields are
    the BCD value of the register. *)
Lemma parse_tcap_tfp_exact (b0 b1 b2 b3 b4 b5 b6 b7 b8 b9 b10 b11 : byte) :
  let ba := [b0; b1; b2; b3; b4; b5; b6; b7; b8; b9; b10; b11] in
  Forall (fun d => 0 <= d <= 7) (used_digits ba) ->
  Forall (fun b => hi_digit b mod 2 = 0) [b3; b4; b5; b6; b7; b8; b9; b10] ->
  exists t,
    parse_tcap_tfp ba = Ok t
    /\ days t = lo_digit b3 * 100 + hi_digit b4 * 10 + lo_digit b4
    /\ hours t = hi_digit b5 * 10 + lo_digit b5
    /\ minutes t = hi_digit b6 * 10 + lo_digit b6
    /\ seconds t
       = (inject_Z (hi_digit b7 * 10 + lo_digit b7)
          + inject_Z (hi_digit b8) * (1 # 10)
          + inject_Z (lo_digit b8) * (1 # 100)
          + inject_Z (hi_digit b9) * (1 # 1000)
          + inject_Z (lo_digit b9) * (1 # 10000)
          + inject_Z (hi_digit b10) * (1 # 100000)
          + inject_Z (lo_digit b10) * (1 # 1000000)
          + inject_Z (hi_digit b11) * (1 # 10000000))%Q
    /\ ts_epoch t
       = (seconds t
          + inject_Z (60 * (minutes t + 60 * (hours t + 24 * days t))))%Q.
Proof.
  intros ba Hdigits Heven. unfold ba in *. cbn [used_digits skipn] in Hdigits.
  repeat match goal with
         | H : Forall _ (_ :: _) |- _ =>
             apply Forall_cons_iff in H; destruct H
         end.
  eexists. split; [reflexivity |].
  cbn [days hours minutes seconds ts_epoch].
  rewrite !nib_upper_small, !nib_lower_clean by assumption.
  repeat split.
Qed.

(** C10: the register of day 005, 12:30:45.1234567 has every digit of the
    table in 0-7, and [parse_tcap_tfp] does not decode its BCD value: the
    units of hours, of minutes and of three fractions of a second come out
    with 16 added, as hours 28, minutes 46 and seconds 45.2850727. *)
Theorem parse_tcap_tfp_odd_upper_digit :
  Forall (fun d => 0 <= d <= 7) (used_digits register_005_12_30_45)
  /\ used_digits register_005_12_30_45
     = [0; 0; 5; 1; 2; 3; 0; 4; 5; 1; 2; 3; 4; 5; 6; 7]
  /\ exists t,
       parse_tcap_tfp register_005_12_30_45 = Ok t
       /\ days t = 5
       /\ hours t = 28
       /\ minutes t = 46
       /\ (seconds t == 452850727 # 10000000)%Q
       /\ (ts_epoch t == seconds t + inject_Z (60 * (46 + 60 * (28 + 24 * 5))))%Q.
Proof.
  split; [| split].
  - vm_compute. repeat constructor; discriminate.
  - reflexivity.
  - eexists. split; [reflexivity |].
    repeat split; vm_compute; reflexivity.
Qed.

(** C9, as stated, fails: the units of seconds of [register_f_seconds] are
    the nibble 15, which is no decimal digit, and the register is decoded
    all the same, to 7 seconds. *)
Lemma parse_tcap_tfp_accepts_nibble_15 :
  In 15 (used_digits register_f_seconds)
  /\ exists t,
       parse_tcap_tfp register_f_seconds = Ok t
       /\ (seconds t == 7)%Q.
Proof.
  split.
  - vm_compute. tauto.
  - eexists. split; [reflexivity | vm_compute; reflexivity].
Qed.

(** C9, amended: [parse_tcap_tfp] masks every nibble it extracts and
    validates none: a register of at least 12 bytes is decoded whatever
    its nibbles hold, and the only registers refused are those shorter
    than 12 bytes, with an [IndexError]. *)
Theorem parse_tcap_tfp_never_flags (ba : list byte) :
  ((12 <= length ba)%nat -> exists t, parse_tcap_tfp ba = Ok t)
  /\ ((length ba < 12)%nat -> parse_tcap_tfp ba = Raise IndexError).
Proof.
  split.
  - apply parse_tcap_tfp_ok.
  - intros H.
    do 12 (destruct ba as [| ? ba]; [reflexivity |]).
    cbn in H. lia.
Qed.

Lemma parse_tcap_tfp_never_flags_witness :
  (exists t, parse_tcap_tfp register_f_seconds = Ok t)
  /\ parse_tcap_tfp [x00; x00; x00] = Raise IndexError.
Proof.
  split.
  - apply (parse_tcap_tfp_never_flags register_f_seconds). cbn. lia.
  - apply (parse_tcap_tfp_never_flags [x00; x00; x00]). cbn. lia.
Defined.

(** ** Sample counts of the readers *)

Lemma len_read_at (f : file) (pos n : Z) :
  len (read_at f pos n)
  = if n <? 0 then Z.max 0 (size f - pos)
    else Z.min n (Z.max 0 (size f - pos)).
Proof.
  unfold read_at, len. rewrite length_map, zseq_length.
  destruct (Z.ltb_spec n 0); lia.
Qed.

Lemma int_truediv_nonzero (a b : Z) :
  b <> 0 -> int_truediv a b = Ok (Z.quot a b).
Proof.
  intros H. unfold int_truediv.
  destruct (Z.eqb_spec b 0); [contradiction | reflexivity].
Qed.

Lemma view_le_i32_length (ba : list byte) (n : Z) :
  0 <= n -> len ba = 8 * n ->
  exists arr,
    (ints <- fromstring_le_i32 ba ;; view_complex ints) = Ok arr
    /\ len arr = n.
Proof.
  intros Hn Hlen. unfold fromstring_le_i32.
  replace (len ba mod 4) with 0 by (rewrite Hlen; Z.div_mod_to_equations; lia).
  cbn [Z.eqb bind]. unfold view_complex.
  assert (Hitems : length (le_i32_items ba) = (2 * Z.to_nat n)%nat)
    by (apply le_i32_items_length; unfold len in Hlen; lia).
  replace (len (le_i32_items ba) mod 2) with 0
    by (unfold len; rewrite Hitems; Z.div_mod_to_equations; lia).
  cbn [Z.eqb]. eexists. split; [reflexivity |].
  unfold len. rewrite (pairs_length (Z.to_nat n)); [lia | exact Hitems].
Qed.

Lemma swap_pairs_length (d : list byte) :
  (4 * length (swap_pairs d) <= length d)%nat.
Proof.
  assert (H : forall n (d : list byte),
             (length d <= n)%nat ->
             (4 * length (swap_pairs d) <= length d)%nat).
  { induction n as [| n IH]; intros l Hl.
    - destruct l; [cbn; lia | cbn in Hl; lia].
    - destruct l as [| q0 [| q1 [| i0 [| i1 r]]]]; cbn [swap_pairs length];
        try lia.
      assert (Hr := IH r). cbn in Hl. lia. }
  apply (H (length d)). lia.
Qed.

Lemma frames_samples_length (k : nat) (ba : list byte) :
  (length (frames_samples k ba) <= 1024 * k)%nat.
Proof.
  revert ba. induction k as [| k IH]; intros ba; cbn [frames_samples].
  - cbn. lia.
  - rewrite length_app. specialize (IH (skipn (Z.to_nat frame_itemsize) ba)).
    assert (Hf := swap_pairs_length
                    (skipn (Z.to_nat frame_header_itemsize)
                       (firstn (Z.to_nat frame_itemsize) ba))).
    rewrite length_skipn, length_firstn in Hf.
    unfold frame_samples.
    remember (length (swap_pairs
                (skipn (Z.to_nat frame_header_itemsize)
                   (firstn (Z.to_nat frame_itemsize) ba)))) as m eqn:Em.
    clear Em.
    change (Z.to_nat frame_header_itemsize) with 24%nat in Hf.
    change (Z.to_nat frame_itemsize) with 4120%nat in Hf.
    lia.
Qed.

Lemma fits_float_below (n : Z) : Z.abs n < 2 ^ 63 -> fits_float n = true.
Proof.
  intros H. unfold fits_float. apply Z.ltb_lt.
  eapply Z.lt_trans; [exact H |]. reflexivity.
Qed.

Lemma int_div_float_ok (n : Z) (x : Q) :
  fits_float n = true -> ~ (x == 0)%Q -> int_div_float n x = Ok tt.
Proof.
  intros Hn Hx. unfold int_div_float. rewrite Hn. cbn [negb].
  destruct (Qeq_bool x 0) eqn:E; [| reflexivity].
  apply Qeq_bool_iff in E. contradiction.
Qed.

Lemma read_n_inside (f : file) (pos n : Z) :
  0 <= n < 2 ^ 62 -> read_n f pos n = Ok (read_at f pos n).
Proof.
  intros [H0 H1]. unfold read_n.
  destruct (Z.ltb_spec n (-1)); [lia |].
  destruct (Z.leb_spec (2 ^ 63 - 33) n) as [Hbig | _]; [| reflexivity].
  exfalso. apply (Z.lt_irrefl n).
  eapply Z.lt_le_trans; [exact H1 |].
  eapply Z.le_trans; [| exact Hbig]. discriminate.
Qed.

Lemma fs_assign_if {A : Type} (o : option A) (set : A -> IQData -> IQData)
    (s : IQData) :
  (forall v s', fs (set v s') = fs s') -> fs (assign_if o set s) = fs s.
Proof. intros H. destruct o; [apply H | reflexivity]. Qed.

Lemma scale_assign_if {A : Type} (o : option A)
    (set : A -> IQData -> IQData) (s : IQData) :
  (forall v s', scale (set v s') = scale s') ->
  scale (assign_if o set s) = scale s.
Proof. intros H. destruct o; [apply H | reflexivity]. Qed.

Lemma number_samples_assign_if {A : Type} (o : option A)
    (set : A -> IQData -> IQData) (s : IQData) :
  (forall v s', number_samples (set v s') = number_samples s') ->
  number_samples (assign_if o set s) = number_samples s.
Proof. intros H. destruct o; [apply H | reflexivity]. Qed.

(** [read_tiq] from the log lines on: the sampling frequency and the
    number of samples it uses are [tiq_fs] and [tiq_number_samples]. *)
Lemma read_tiq_unfold (self : IQData) (f : file) (x : tiq_xml) (N L S : Z) :
  exists s : IQData,
    scale s = match Scaling x with
              | Some q => ScaleQ q
              | None => scale self
              end
    /\ read_tiq self f x N L S
       = (u <- int_div_float L (tiq_fs self x) ;;
          tot <- int_truediv (tiq_number_samples self x) L ;;
          u <- int_div_float (tiq_number_samples self x) (tiq_fs self x) ;;
          u <- int_div_float (S * L) (tiq_fs self x) ;;
          u <- int_div_float (N * L) (tiq_fs self x) ;;
          pos <- seek (tiq_data_offset x + 8 * (S - 1) * L) ;;
          ba <- read_n f pos (8 * N * L) ;;
          ints <- fromstring_le_i32 ba ;;
          arr <- view_complex ints ;;
          Ok (set_data_array (Some (mkCArray arr (scale s)))
                (set_header (Some (read_at f 0 (tiq_data_offset x)))
                   (set_nframes_tot tot s)))).
Proof.
  unfold read_tiq. cbv zeta.
  set (s6 := assign_if (RFAttenuation x) set_rf_att _).
  assert (Hfs6 : fs s6 = fs self).
  { unfold s6. now rewrite !fs_assign_if by reflexivity. }
  assert (Hsc6 : scale s6 = scale self).
  { unfold s6. now rewrite !scale_assign_if by reflexivity. }
  assert (Hns6 : number_samples s6 = tiq_number_samples self x).
  { unfold s6, tiq_number_samples.
    rewrite !(number_samples_assign_if (RFAttenuation x)),
            !(number_samples_assign_if (ResolutionBandwidth x))
      by reflexivity.
    destruct (NumberSamples x); [reflexivity |]. cbn [assign_if].
    now rewrite !number_samples_assign_if by reflexivity. }
  set (s9 := assign_if (Scaling x) _ _).
  assert (Hfs9 : fs s9 = tiq_fs self x).
  { unfold s9, tiq_fs. rewrite !fs_assign_if by reflexivity.
    destruct (SamplingFrequency x); [reflexivity | exact Hfs6]. }
  assert (Hns9 : number_samples s9 = tiq_number_samples self x).
  { unfold s9. now rewrite !number_samples_assign_if by reflexivity. }
  exists s9. split.
  - unfold s9. destruct (Scaling x); [reflexivity |].
    cbn [assign_if]. rewrite !scale_assign_if by reflexivity.
    destruct (SamplingFrequency x); [exact Hsc6 | exact Hsc6].
  - cbn [fs number_samples scale set_nframes_tot set_header].
    rewrite Hfs9, Hns9. reflexivity.
Qed.

Lemma read_tiq_sample_count (self : IQData) (f : file) (x : tiq_xml)
    (N L S total : Z) :
  0 < L -> 0 < N -> 1 <= S ->
  NumberSamples x = Some total -> total < 2 ^ 53 ->
  ~ (tiq_fs self x == 0)%Q ->
  (S - 1 + N) * L <= total ->
  0 <= tiq_data_offset x -> tiq_data_offset x + 8 * total <= size f ->
  exists self' arr,
    read_tiq self f x N L S = Ok self'
    /\ data_array self' = Some arr
    /\ len (samples arr) = N * L.
Proof.
  intros HL HN HS Hns Htot Hfs Hfit Hoff Hsize.
  destruct (read_tiq_unfold self f x N L S) as (s & _ & ->).
  unfold tiq_number_samples. rewrite Hns.
  assert (H53 : 2 ^ 53 < 2 ^ 62) by reflexivity.
  assert (H62 : 2 ^ 62 < 2 ^ 63) by reflexivity.
  rewrite !int_div_float_ok by (try apply fits_float_below; try nia; exact Hfs).
  cbn [bind].
  rewrite int_truediv_nonzero by lia. cbn [bind].
  unfold seek.
  destruct (Z.ltb_spec (tiq_data_offset x + 8 * (S - 1) * L) 0); [nia |].
  cbn [bind]. rewrite read_n_inside by nia. cbn [bind].
  destruct (view_le_i32_length
              (read_at f (tiq_data_offset x + 8 * (S - 1) * L) (8 * N * L))
              (N * L)) as (arr & Hview & Harr).
  - nia.
  - rewrite len_read_at_inside; nia.
  - unfold bind in Hview |- *.
    destruct (fromstring_le_i32 _) as [ints |]; [| discriminate].
    rewrite Hview. eexists. eexists. split; [reflexivity |].
    cbn. split; [reflexivity | exact Harr].
Qed.

Ltac frame_consts :=
  change frame_itemsize with 4120 in *;
  change frame_header_itemsize with 24 in *.

Lemma read_iqt_sample_count (self : IQData) (f : file) (h : iqt_header)
    (N L S : Z) :
  0 < N -> 1 <= S ->
  ~ (FrameLength h == 0)%Q ->
  fits_float (FFTPoints h) = true ->
  0 <= iqt_data_offset h ->
  iqt_data_offset h + (S - 1 + N) * frame_itemsize <= size f ->
  size f < 2 ^ 53 ->
  exists self' arr,
    read_iqt self f h N L S = Ok self'
    /\ data_array self' = Some arr
    /\ len (samples arr) = 1024 * N.
Proof.
  intros HN HS Hfl Hfft Hoff Hfit Hsize. unfold read_iqt.
  rewrite int_div_float_ok by assumption. cbn [bind].
  destruct (Z.ltb_spec (1024 * N) 0); [lia |].
  unfold seek.
  destruct (Z.ltb_spec (iqt_data_offset h + (S - 1) * frame_itemsize) 0);
    [frame_consts; lia |].
  cbn [bind].
  assert (H53 : 2 ^ 53 < 2 ^ 62) by reflexivity.
  rewrite read_n_inside by (frame_consts; lia). cbn [bind].
  set (ba := read_at f _ _).
  assert (Hlen : len ba = N * frame_itemsize).
  { unfold ba. apply len_read_at_inside; frame_consts; lia. }
  assert (Hmod : len ba mod frame_itemsize = 0).
  { rewrite Hlen. frame_consts. Z.div_mod_to_equations. lia. }
  rewrite Hmod. cbn [Z.eqb negb].
  eexists. eexists. split; [reflexivity |].
  cbn [data_array set_data_array samples]. split; [reflexivity |].
  assert (Hgot := frames_samples_length
                    (Z.to_nat (len ba / frame_itemsize)) ba).
  assert (Hk : len ba / frame_itemsize = N).
  { rewrite Hlen. frame_consts. Z.div_mod_to_equations. lia. }
  cbn [samples].
  set (got := frames_samples (Z.to_nat (len ba / frame_itemsize)) ba) in *.
  unfold len at 1. rewrite length_app, repeat_length. lia.
Qed.

Lemma py_slice_from_skipn {A : Type} (k : Z) (l : list A) :
  0 <= k <= len l -> py_slice_from k l = skipn (Z.to_nat k) l.
Proof.
  intros H. unfold py_slice_from. now rewrite clip_index_inside.
Qed.

Lemma len_skipn {A : Type} (k : Z) (l : list A) :
  0 <= k <= len l -> len (skipn (Z.to_nat k) l) = len l - k.
Proof.
  intros H. unfold len in *. rewrite length_skipn. lia.
Qed.

(** With the records of the window in the channels, after the first record
    when the window starts beyond it, the conversion yields as many samples
    as were asked for. *)
Lemma tdms_convert_sample_count (self : IQData) (stream : tdms_stream)
    (w : window) (ii qq : list Z) (g : Q) (gains : list Q) :
  0 <= tdms_nSamplesPerRecord self ->
  0 <= starting_sample_within_start_record w ->
  0 <= total_n_bytes w ->
  stream (start_record w)
         (tdms_first_rec_size self
          + (start_record w + n_records w - 2) * tdms_other_rec_size self)
    = mkRaw (Some ii) (Some qq) (Some (g :: gains)) ->
  (if start_record w >? 1 then tdms_nSamplesPerRecord self else 0)
  + starting_sample_within_start_record w + total_n_bytes w <= len ii ->
  (if start_record w >? 1 then tdms_nSamplesPerRecord self else 0)
  + starting_sample_within_start_record w + total_n_bytes w <= len qq ->
  exists self' arr,
    tdms_convert self stream w = Ok self'
    /\ data_array self' = Some arr
    /\ len (samples arr) = total_n_bytes w.
Proof.
  intros Hspr Hoff Htot Hraw HI HQ. unfold tdms_convert.
  rewrite Hraw. cbn [rd_I rd_Q rd_gain lookup bind].
  set (off := starting_sample_within_start_record w) in *.
  set (tot := total_n_bytes w) in *.
  assert (Hsl : forall c : list Z,
            (if start_record w >? 1 then tdms_nSamplesPerRecord self else 0)
            + off + tot <= len c ->
            len (py_slice off (off + tot)
                   (if start_record w >? 1
                    then py_slice_from (tdms_nSamplesPerRecord self) c
                    else c)) = tot).
  { intros c Hc. destruct (start_record w >? 1).
    - rewrite py_slice_from_skipn by lia.
      rewrite py_slice_inside; try lia.
      + apply len_firstn_skipn; try lia. rewrite len_skipn; lia.
      + rewrite len_skipn; lia.
    - rewrite py_slice_inside by lia. apply len_firstn_skipn; lia. }
  unfold interleave.
  destruct (Z.ltb_spec tot 0); [lia |].
  rewrite !assign_channel_exact by (apply Hsl; assumption).
  cbn [bind index0]. eexists. eexists. split; [reflexivity |].
  cbn [data_array set_data_array samples]. split; [reflexivity |].
  cbn [samples]. apply len_combine; apply Hsl; assumption.
Qed.

(** C1, as stated, fails.  With both records of [two_records] parsed, the
    request (L=1024, N=2, S=1) is inside the 2048 samples of the file, and
    [read_tdms] returns without a buffer.  On an IQT file of two frames the
    request (L=512, N=1, S=1) is inside its 2048 samples, and [read_iqt]
    returns 1024 samples, not 512. *)
Lemma read_window_not_always_N_times_L :
  ((1 - 1 + 2) * 1024 <= number_samples two_records
   /\ read_tdms two_records both_records 2 1024 1
      = Ok (set_nframes 2 (set_lframes 1024 two_records))
   /\ data_array (set_nframes 2 (set_lframes 1024 two_records)) = None)
  /\ ((1 - 1 + 1) * 512
      <= ValidFrames iqt_two_frames * FFTPoints iqt_two_frames
      /\ exists self' arr,
           read_iqt init iqt_two_frames_file iqt_two_frames 1 512 1 = Ok self'
           /\ number_samples self' = 2048
           /\ data_array self' = Some arr
           /\ len (samples arr) = 1024
           /\ 1024 <> 1 * 512).
Proof.
  split.
  - repeat split. vm_compute. discriminate.
  - split; [vm_compute; discriminate |].
    eexists. eexists. split; [vm_compute; reflexivity |].
    repeat split. discriminate.
Qed.

(** C1, amended: for a request with L > 0, N > 0 and S >= 1,
    - [read_tiq] returns exactly N*L complex samples when the header gives
      NumberSamples = total with (S-1+N)*L <= total < 2^53, the sampling
      frequency after the header (the SamplingFrequency element, or the
      [fs] of the reader where there is none) is not zero, and the file
      holds total samples after its header;
    - [read_iqt] returns exactly 1024*N complex samples, whatever L is, when
      the header gives a FrameLength that is not zero and FFTPoints within
      the range of a float, and the file, of less than 2^53 bytes, holds
      the frames S to S-1+N after its header;
    - [read_tdms], for (S-1+N)*L < 2^53 and records of more than zero
      samples, returns without a buffer when start unit plus units needed
      (start_record - 1 + n_records) exceeds the records of the file, and
      returns exactly N*L complex samples when start_record + n_records
      stays within them and the read loop has left the records of the
      window in both channels, after the first record when the window
      starts beyond it, and a gain. *)
Theorem read_window_sample_count (self : IQData) (N L S : Z) :
  0 < L -> 0 < N -> 1 <= S ->
  (forall (f : file) (x : tiq_xml) (total : Z),
     NumberSamples x = Some total -> total < 2 ^ 53 ->
     ~ (tiq_fs self x == 0)%Q ->
     (S - 1 + N) * L <= total ->
     0 <= tiq_data_offset x -> tiq_data_offset x + 8 * total <= size f ->
     exists self' arr,
       read_tiq self f x N L S = Ok self'
       /\ data_array self' = Some arr
       /\ len (samples arr) = N * L)
  /\ (forall (f : file) (h : iqt_header),
        ~ (FrameLength h == 0)%Q ->
        Z.abs (FFTPoints h) < 2 ^ 1024 - 2 ^ 970 ->
        0 <= iqt_data_offset h ->
        iqt_data_offset h + (S - 1 + N) * frame_itemsize <= size f ->
        size f < 2 ^ 53 ->
        exists self' arr,
          read_iqt self f h N L S = Ok self'
          /\ data_array self' = Some arr
          /\ len (samples arr) = 1024 * N)
  /\ (forall (stream : tdms_stream) (w : window),
        0 < tdms_nSamplesPerRecord self ->
        (S - 1 + N) * L < 2 ^ 53 ->
        tdms_window (tdms_nSamplesPerRecord self) N L S = Ok w ->
        (start_record w - 1 + n_records w > tdms_nRecordsPerFile self ->
         read_tdms self stream N L S = Ok (set_nframes N (set_lframes L self))
         /\ data_array (set_nframes N (set_lframes L self))
            = data_array self)
        /\ (start_record w + n_records w <= tdms_nRecordsPerFile self ->
            forall (ii qq : list Z) (g : Q) (gains : list Q),
              stream (start_record w)
                     (tdms_first_rec_size self
                      + (start_record w + n_records w - 2)
                        * tdms_other_rec_size self)
                = mkRaw (Some ii) (Some qq) (Some (g :: gains)) ->
              len ii = (n_records w + (if start_record w >? 1 then 1 else 0))
                       * tdms_nSamplesPerRecord self ->
              len qq = len ii ->
              exists self' arr,
                read_tdms self stream N L S = Ok self'
                /\ data_array self' = Some arr
                /\ len (samples arr) = N * L)).
Proof.
  intros HL HN HS. split; [| split].
  - intros f x total. now apply read_tiq_sample_count.
  - intros f h Hfl Hfft. apply read_iqt_sample_count; try assumption.
    unfold fits_float. now apply Z.ltb_lt.
  - intros stream w Hspr _ Hw.
    rewrite (read_tdms_unfold self stream N L S w Hw).
    unfold tdms_too_much. split; intros Hcmp.
    + destruct (Z.gtb_spec (start_record w + n_records w)
                  (tdms_nRecordsPerFile self)); [| lia].
      split; [reflexivity | destruct self; reflexivity].
    + intros ii qq g gains Hraw HI HQ.
      destruct (Z.gtb_spec (start_record w + n_records w)
                  (tdms_nRecordsPerFile self)); [lia |].
      assert (Hw' := tdms_window_valid _ N L S Hspr
                       (Z.lt_le_incl _ _ HL) (Z.lt_le_incl _ _ HN) HS).
      rewrite Hw in Hw'. injection Hw' as Ew.
      assert (Hoff : 0 <= starting_sample_within_start_record w
                     < tdms_nSamplesPerRecord self)
        by (rewrite Ew; cbn; apply Z.mod_pos_bound; lia).
      assert (Htot : total_n_bytes w = N * L) by (rewrite Ew; reflexivity).
      assert (Hrec : starting_sample_within_start_record w + N * L
                     < n_records w * tdms_nSamplesPerRecord self).
      { rewrite Ew. cbn [n_records starting_sample_within_start_record].
        pose proof (Z.mul_succ_div_gt
                      (((S - 1) * L) mod tdms_nSamplesPerRecord self + N * L)
                      (tdms_nSamplesPerRecord self) Hspr). lia. }
      rewrite <- Htot.
      apply (tdms_convert_sample_count _ stream w ii qq g gains);
        cbn [set_nframes set_lframes tdms_nSamplesPerRecord
             tdms_first_rec_size tdms_other_rec_size];
        try lia; try exact Hraw.
      * rewrite HI. destruct (start_record w >? 1); lia.
      * rewrite HQ, HI. destruct (start_record w >? 1); lia.
Qed.

Lemma read_window_sample_count_witness :
  (exists self' arr,
     read_tiq init tiq_4096_file tiq_4096 2 1024 2 = Ok self'
     /\ data_array self' = Some arr
     /\ len (samples arr) = 2 * 1024)
  /\ (exists self' arr,
        read_iqt init iqt_two_frames_file iqt_two_frames 1 1024 2 = Ok self'
        /\ data_array self' = Some arr
        /\ len (samples arr) = 1024 * 1)
  /\ (read_tdms two_records both_records 2 1024 1
        = Ok (set_nframes 2 (set_lframes 1024 two_records))
      /\ data_array (set_nframes 2 (set_lframes 1024 two_records))
         = data_array two_records)
  /\ (exists self' arr,
        read_tdms ten_records ramp_stream 2 2 4 = Ok self'
        /\ data_array self' = Some arr
        /\ len (samples arr) = 2 * 2).
Proof.
  split; [| split; [| split]].
  - destruct (read_window_sample_count init 2 1024 2) as (Htiq & _ & _);
      try lia.
    apply (Htiq tiq_4096_file tiq_4096 4096);
      try reflexivity; try (vm_compute; discriminate).
  - destruct (read_window_sample_count init 1 1024 2) as (_ & Hiqt & _);
      try lia.
    apply (Hiqt iqt_two_frames_file iqt_two_frames);
      try reflexivity; try (vm_compute; discriminate).
  - destruct (read_window_sample_count two_records 2 1024 1)
      as (_ & _ & Htdms); try lia.
    destruct (Htdms both_records (mkWindow 2048 0 1 0 3)) as (Hstop & _);
      try reflexivity.
    apply Hstop. vm_compute. reflexivity.
  - destruct (read_window_sample_count ten_records 2 2 4)
      as (_ & _ & Htdms); try lia.
    destruct (Htdms ramp_stream (mkWindow 4 6 2 2 2)) as (_ & Hgo);
      try reflexivity.
    apply (Hgo ltac:(vm_compute; discriminate)
               [0; 1; 2; 3; 4; 5; 6; 7; 8; 9; 10; 11]
               [0; -1; -2; -3; -4; -5; -6; -7; -8; -9; -10; -11]
               (1 # 2)%Q []); reflexivity.
Defined.

(** * Further properties *)

(** ** [text_header_parser] *)

Lemma header_line_set (dic : dict) (line : pystr) :
  header_line dic line = dict_set (line_key line) (line_value line) dic.
Proof.
  unfold header_line, line_key, line_value.
  now destruct (partition_eq line).
Qed.

Lemma in_replace_char (x c : N) (new s : pystr) :
  In x (replace_char c new s) ->
  (In x new /\ In c s) \/ (In x s /\ x <> c).
Proof.
  unfold replace_char. rewrite in_flat_map. intros (y & Hy & Hx).
  destruct (N.eqb_spec y c) as [-> | Hne].
  - left. now split.
  - right. destruct Hx as [<- | []]. now split.
Qed.

Lemma replace_char_absent (c : N) (new s : pystr) :
  ~ In c s -> replace_char c new s = s.
Proof.
  unfold replace_char. induction s as [| y s IH]; intros Hc; [reflexivity |].
  cbn [flat_map]. destruct (N.eqb_spec y c) as [-> | _].
  - exfalso. apply Hc. now left.
  - cbn. f_equal. apply IH. intros H. apply Hc. now right.
Qed.

Lemma replace_char_app (c : N) (new s s' : pystr) :
  replace_char c new (s ++ s') = replace_char c new s ++ replace_char c new s'.
Proof. apply flat_map_app. Qed.

Lemma dict_get_set_same (k v : pystr) (d : dict) :
  dict_get k (dict_set k v d) = Some v.
Proof.
  induction d as [| [k' v'] d IH]; cbn.
  - destruct (list_eq_dec N.eq_dec k k); [reflexivity | contradiction].
  - destruct (list_eq_dec N.eq_dec k k') as [E | E]; cbn;
      destruct (list_eq_dec N.eq_dec k k'); try contradiction;
      [reflexivity | exact IH].
Qed.

Lemma dict_get_set_other (k k0 v : pystr) (d : dict) :
  k <> k0 -> dict_get k (dict_set k0 v d) = dict_get k d.
Proof.
  intros Hne. induction d as [| [k' v'] d IH]; cbn.
  - destruct (list_eq_dec N.eq_dec k k0); [contradiction | reflexivity].
  - destruct (list_eq_dec N.eq_dec k0 k') as [E | E]; cbn.
    + subst k'. destruct (list_eq_dec N.eq_dec k k0);
        [contradiction | reflexivity].
    + destruct (list_eq_dec N.eq_dec k k'); [reflexivity | exact IH].
Qed.

(** What a lookup finds after more lines: the value of the last of them
    with the key, and what it found before when none has it. *)
Lemma dict_get_fold_absent (k : pystr) (str : list pystr) (dic : dict) :
  (forall line, In line str -> line_key line <> k) ->
  dict_get k (fold_left header_line str dic) = dict_get k dic.
Proof.
  revert dic. induction str as [| l str IH]; intros dic Hno; [reflexivity |].
  cbn [fold_left]. rewrite IH by (intros x Hx; apply Hno; now right).
  rewrite header_line_set. apply dict_get_set_other.
  intros E. apply (Hno l); [now left | now symmetry].
Qed.

Lemma value_of_header_line (str : list pystr) (dic : dict) (k v : pystr) :
  dict_get k (fold_left header_line str dic) = Some v ->
  dict_get k dic = Some v \/ exists line, In line str /\ v = line_value line.
Proof.
  revert dic. induction str as [| l str IH]; intros dic H; [now left |].
  cbn [fold_left] in H. apply IH in H as [H | (line & Hin & ->)].
  - rewrite header_line_set in H.
    destruct (list_eq_dec N.eq_dec k (line_key l)) as [-> | Hne].
    + rewrite dict_get_set_same in H. injection H as <-.
      right. exists l. split; [now left | reflexivity].
    + rewrite dict_get_set_other in H by exact Hne. now left.
  - right. exists line. split; [now right | reflexivity].
Qed.

Lemma header_value_letters (var : pystr) :
  (forall c, In c (lit "kmu") -> ~ In c (header_value var))
  /\ (In 77%N (header_value var) ->
      contains (lit "PM") (header_value var) = true
      \/ contains (lit "AM") (header_value var) = true).
Proof.
  unfold header_value.
  set (v3 := replace_char 117 _ (replace_char 109 _ (replace_char 107 _ _))).
  assert (H3 : forall c, In c (lit "kmu") -> ~ In c v3).
  { intros c Hc Hin. unfold v3 in Hin. cbn in Hc.
    repeat match goal with
           | H : In _ (replace_char _ _ _) |- _ =>
               apply in_replace_char in H as [[H _] | [H ?]]
           end;
      cbn in *; intuition (subst; try discriminate; congruence). }
  destruct (negb (contains (lit "PM") v3) && negb (contains (lit "AM") v3))
    eqn:Etest.
  - split.
    + intros c Hc Hin.
      apply in_replace_char in Hin as [[Hin _] | [Hin _]].
      * cbn in Hc, Hin. intuition (subst; discriminate).
      * now apply (H3 c).
    + intros Hin. apply in_replace_char in Hin as [[Hin _] | [_ Hne]].
      * cbn in Hin. intuition discriminate.
      * contradiction.
  - split; [exact H3 |]. intros _.
    destruct (contains (lit "PM") v3); [now left |].
    destruct (contains (lit "AM") v3); [now right | discriminate].
Qed.

(** X1: no value that [text_header_parser] stores holds a [k], an [m] or
    a [u], and none holds an [M] unless it holds [PM] or [AM]: the unit
    letters are always rewritten to exponents. *)
Theorem text_header_parser_rewrites_units (str : list pystr) (k v : pystr) :
  dict_get k (text_header_parser str) = Some v ->
  (forall c, In c (lit "kmu") -> ~ In c v)
  /\ (In 77%N v ->
      contains (lit "PM") v = true \/ contains (lit "AM") v = true).
Proof.
  intros H. apply value_of_header_line in H as [H | (line & _ & ->)].
  - discriminate.
  - apply header_value_letters.
Qed.

Lemma text_header_parser_rewrites_units_witness :
  (forall c, In c (lit "kmu") -> ~ In c (lit "5e-3"))
  /\ (In 77%N (lit "5e-3") ->
      contains (lit "PM") (lit "5e-3") = true
      \/ contains (lit "AM") (lit "5e-3") = true).
Proof.
  apply (text_header_parser_rewrites_units header_example (lit "Span")).
  reflexivity.
Defined.

(** X2: a lookup in the dictionary of [text_header_parser] is decided by
    the last line that has the key: it finds nothing when no line has the
    key (where [header_dic[key]] raises [KeyError]), and the value of a
    line when no later line has the same key. *)
Theorem text_header_parser_last_line_wins (str : list pystr) (k : pystr) :
  ((forall line, In line str -> line_key line <> k) ->
   dict_get k (text_header_parser str) = None)
  /\ (forall (before after : list pystr) (line : pystr),
        str = before ++ line :: after ->
        line_key line = k ->
        (forall later, In later after -> line_key later <> k) ->
        dict_get k (text_header_parser str) = Some (line_value line)).
Proof.
  split.
  - intros Hno. unfold text_header_parser.
    now rewrite dict_get_fold_absent.
  - intros before after line -> <- Hlater. unfold text_header_parser.
    rewrite fold_left_app. cbn [fold_left].
    rewrite dict_get_fold_absent by exact Hlater.
    rewrite header_line_set. apply dict_get_set_same.
Qed.

Lemma text_header_parser_last_line_wins_witness :
  dict_get (lit "FFTPoints") (text_header_parser header_example) = None
  /\ dict_get (lit "Span") (text_header_parser header_example)
     = Some (lit "5e-3").
Proof.
  split.
  - apply (text_header_parser_last_line_wins header_example
             (lit "FFTPoints")).
    intros line Hin. cbn in Hin.
    repeat destruct Hin as [<- | Hin]; try contradiction;
      vm_compute; discriminate.
  - destruct (text_header_parser_last_line_wins header_example (lit "Span"))
      as [_ Hlast].
    apply (Hlast [lit "CenterFrequency = 1.5k"; lit "Span=10M";
                  lit "DateTime= 2015/08/20 01:02:03 PM "]
                 [] (lit "Span = 5m")); try reflexivity.
    intros later [].
Defined.

Lemma partition_eq_first (name var : pystr) :
  ~ In 61%N name -> partition_eq (name ++ 61%N :: var) = (name, var).
Proof.
  induction name as [| c name IH]; intros Hno; [reflexivity |].
  cbn [app partition_eq]. destruct (N.eqb_spec c 61) as [-> | _].
  - exfalso. apply Hno. now left.
  - rewrite IH; [reflexivity |]. intros H. apply Hno. now right.
Qed.

Lemma contains_absent (a : N) (sub s : pystr) :
  ~ In a s -> contains (a :: sub) s = false.
Proof.
  induction s as [| b s IH]; intros Hno; [reflexivity |].
  cbn [contains starts_with]. destruct (N.eqb_spec a b) as [-> | _].
  - exfalso. apply Hno. now left.
  - cbn. apply IH. intros H. apply Hno. now right.
Qed.

Lemma header_value_plain (var : pystr) :
  strip var = var ->
  (forall c, In c (lit "kmu") -> ~ In c var) ->
  (~ In 77%N var
   \/ contains (lit "PM") var = true \/ contains (lit "AM") var = true) ->
  header_value var = var.
Proof.
  intros Hstrip Hkmu HM. unfold header_value. rewrite Hstrip.
  rewrite (replace_char_absent 107 _ var), (replace_char_absent 109 _ var),
    (replace_char_absent 117 _ var) by (apply Hkmu; cbn; tauto).
  destruct (contains (lit "PM") var) eqn:EP; [reflexivity |].
  destruct (contains (lit "AM") var) eqn:EA; [reflexivity |].
  cbn [negb andb]. apply replace_char_absent.
  destruct HM as [HM | [HM | HM]]; [exact HM | discriminate | discriminate].
Qed.

(** X3: a line [name=value] whose value has no white space around it, no
    [k], [m] or [u], and no [M] unless it holds [PM] or [AM], is stored
    unchanged under the stripped name; only the first [=] of the line
    splits it, so the value may hold others. *)
Theorem text_header_parser_keeps_plain_value (name var : pystr) :
  ~ In 61%N name ->
  strip var = var ->
  (forall c, In c (lit "kmu") -> ~ In c var) ->
  (~ In 77%N var
   \/ contains (lit "PM") var = true \/ contains (lit "AM") var = true) ->
  text_header_parser [name ++ 61%N :: var] = [(strip name, var)].
Proof.
  intros Hname Hstrip Hkmu HM.
  unfold text_header_parser. cbn [fold_left]. unfold header_line.
  rewrite partition_eq_first by exact Hname.
  now rewrite header_value_plain.
Qed.

Lemma text_header_parser_keeps_plain_value_witness :
  text_header_parser [lit "DateTime " ++ 61%N :: lit "20/08 01:02:03 PM a=b"]
  = [(strip (lit "DateTime "), lit "20/08 01:02:03 PM a=b")].
Proof.
  apply (text_header_parser_keeps_plain_value
           (lit "DateTime ") (lit "20/08 01:02:03 PM a=b")).
  - vm_compute. intuition discriminate.
  - reflexivity.
  - intros c Hc. vm_compute in Hc |- *. intuition (subst; discriminate).
  - right. left. reflexivity.
Defined.

Lemma lstrip_nonspace (c : N) (s : pystr) :
  is_space c = false -> lstrip (c :: s) = c :: s.
Proof. intros H. cbn [lstrip]. now rewrite H. Qed.

Lemma strip_suffix (var : pystr) (c : N) :
  Forall unit_free var -> is_space c = false ->
  strip (var ++ [c]) = var ++ [c].
Proof.
  intros Hvar Hc. unfold strip.
  assert (Hl : lstrip (var ++ [c]) = var ++ [c]).
  { destruct var as [| a var]; [now apply lstrip_nonspace |].
    apply lstrip_nonspace. now inversion Hvar as [| ? ? [Ha _] _]. }
  rewrite Hl, rev_app_distr. cbn [rev app].
  rewrite lstrip_nonspace by exact Hc.
  change (c :: rev var) with ([c] ++ rev var).
  now rewrite rev_app_distr, rev_involutive.
Qed.

Lemma unit_free_absent (var : pystr) (c : N) :
  Forall unit_free var -> In c (lit "kmuMAP") -> ~ In c var.
Proof.
  intros Hvar Hc Hin. rewrite Forall_forall in Hvar.
  destruct (Hvar c Hin) as [_ Hno]. contradiction.
Qed.

Lemma replaced_suffix (var tail : pystr) :
  Forall unit_free var ->
  replace_char 117 (lit "e-6")
    (replace_char 109 (lit "e-3") (replace_char 107 (lit "e3") (var ++ tail)))
  = var ++ replace_char 117 (lit "e-6")
             (replace_char 109 (lit "e-3")
                (replace_char 107 (lit "e3") tail)).
Proof.
  intros Hvar.
  assert (Hno : forall x, In x (lit "kmuMAP") -> ~ In x var)
    by (intros x; now apply unit_free_absent).
  rewrite (replace_char_app 107), (replace_char_absent 107 _ var)
    by (apply Hno; cbn; tauto).
  rewrite (replace_char_app 109), (replace_char_absent 109 _ var)
    by (apply Hno; cbn; tauto).
  rewrite (replace_char_app 117), (replace_char_absent 117 _ var)
    by (apply Hno; cbn; tauto).
  reflexivity.
Qed.

Lemma mega_suffix (var tail : pystr) :
  Forall unit_free var -> ~ In 80%N tail -> ~ In 65%N tail ->
  (if negb (contains (lit "PM") (var ++ tail))
      && negb (contains (lit "AM") (var ++ tail))
   then replace_char 77 (lit "e6") (var ++ tail)
   else var ++ tail)
  = var ++ replace_char 77 (lit "e6") tail.
Proof.
  intros Hvar HP HA.
  assert (Hno : forall x, In x (lit "kmuMAP") -> ~ In x var)
    by (intros x; now apply unit_free_absent).
  change (lit "PM") with [80%N; 77%N].
  change (lit "AM") with [65%N; 77%N].
  rewrite (contains_absent 80), (contains_absent 65).
  - cbn [negb andb].
    rewrite replace_char_app, (replace_char_absent 77 _ var)
      by (apply Hno; cbn; tauto).
    reflexivity.
  - rewrite in_app_iff. intros [H | H]; [| contradiction].
    revert H. apply Hno. cbn. tauto.
  - rewrite in_app_iff. intros [H | H]; [| contradiction].
    revert H. apply Hno. cbn. tauto.
Qed.

Lemma header_value_suffix (var : pystr) (c : N) (new : pystr) :
  Forall unit_free var ->
  In (c, new) [(107%N, lit "e3"); (109%N, lit "e-3"); (117%N, lit "e-6");
               (77%N, lit "e6")] ->
  header_value (var ++ [c]) = var ++ new.
Proof.
  intros Hvar Hc.
  assert (Hsp : is_space c = false).
  { cbn in Hc. destruct Hc as [E | [E | [E | [E | []]]]];
      injection E as <- <-; reflexivity. }
  unfold header_value. rewrite (strip_suffix var c Hvar Hsp).
  rewrite (replaced_suffix var [c] Hvar).
  cbn in Hc.
  destruct Hc as [E | [E | [E | [E | []]]]]; injection E as <- <-;
    (rewrite mega_suffix;
     [reflexivity | exact Hvar
      | vm_compute; intuition discriminate
      | vm_compute; intuition discriminate]).
Qed.

(** X4: after a value of characters that are neither white space nor one
    of [k m u M A P], a final unit letter becomes its exponent:
    [k] gives [e3], [m] gives [e-3], [u] gives [e-6] and [M] gives [e6]. *)
Theorem text_header_parser_unit_suffix (name var : pystr) :
  ~ In 61%N name -> Forall unit_free var ->
  text_header_parser [name ++ 61%N :: var ++ lit "k"]
    = [(strip name, var ++ lit "e3")]
  /\ text_header_parser [name ++ 61%N :: var ++ lit "m"]
    = [(strip name, var ++ lit "e-3")]
  /\ text_header_parser [name ++ 61%N :: var ++ lit "u"]
    = [(strip name, var ++ lit "e-6")]
  /\ text_header_parser [name ++ 61%N :: var ++ lit "M"]
    = [(strip name, var ++ lit "e6")].
Proof.
  intros Hname Hvar.
  unfold text_header_parser. cbn [fold_left]. unfold header_line.
  rewrite !partition_eq_first by exact Hname.
  change (lit "k") with [107%N]. change (lit "m") with [109%N].
  change (lit "u") with [117%N]. change (lit "M") with [77%N].
  rewrite (header_value_suffix var 107 (lit "e3")),
    (header_value_suffix var 109 (lit "e-3")),
    (header_value_suffix var 117 (lit "e-6")),
    (header_value_suffix var 77 (lit "e6"));
    try exact Hvar; cbn; tauto.
Qed.

Lemma text_header_parser_unit_suffix_witness :
  text_header_parser [lit "Span" ++ 61%N :: lit "2.5" ++ lit "k"]
    = [(strip (lit "Span"), lit "2.5" ++ lit "e3")]
  /\ text_header_parser [lit "Span" ++ 61%N :: lit "2.5" ++ lit "m"]
    = [(strip (lit "Span"), lit "2.5" ++ lit "e-3")]
  /\ text_header_parser [lit "Span" ++ 61%N :: lit "2.5" ++ lit "u"]
    = [(strip (lit "Span"), lit "2.5" ++ lit "e-6")]
  /\ text_header_parser [lit "Span" ++ 61%N :: lit "2.5" ++ lit "M"]
    = [(strip (lit "Span"), lit "2.5" ++ lit "e6")].
Proof.
  apply (text_header_parser_unit_suffix (lit "Span") (lit "2.5")).
  - vm_compute. intuition discriminate.
  - repeat constructor; vm_compute; intuition discriminate.
Defined.

(** ** Windows cut with slices: [read_wav] and [shift_cut_data_time] *)

Lemma firstn_beyond {A : Type} (n m : nat) (l : list A) :
  (length l <= m)%nat -> firstn (Nat.min n m) l = firstn n l.
Proof.
  intros H. destruct (Nat.le_ge_cases n m) as [Hn | Hn].
  - now rewrite Nat.min_l.
  - rewrite Nat.min_r by exact Hn.
    now rewrite !firstn_all2 by lia.
Qed.

(** A slice with bounds that are not negative takes what a list has from
    the lower bound on, and stops at its end. *)
Lemma py_slice_window {A : Type} (lo n : Z) (l : list A) :
  0 <= lo -> 0 <= n ->
  py_slice lo (lo + n) l = firstn (Z.to_nat n) (skipn (Z.to_nat lo) l).
Proof.
  intros Hlo Hn. unfold py_slice, clip_index.
  destruct (Z.ltb_spec lo 0); [lia |].
  destruct (Z.ltb_spec (lo + n) 0); [lia |].
  pose proof (len_nonneg l) as Hl.
  destruct (Z.le_gt_cases (len l) lo) as [Hout | Hin].
  - rewrite !Z.min_r by lia. rewrite Z.sub_diag.
    rewrite !skipn_all2 by (unfold len in *; lia).
    now rewrite !firstn_nil.
  - rewrite (Z.min_l lo) by lia.
    replace (Z.to_nat (Z.min (lo + n) (len l) - lo))
      with (Nat.min (Z.to_nat n) (length l - Z.to_nat lo))
      by (unfold len in *; lia).
    apply firstn_beyond. rewrite length_skipn. lia.
Qed.

Lemma len_window {A : Type} (lo n : Z) (l : list A) :
  0 <= lo -> 0 <= n ->
  len (firstn (Z.to_nat n) (skipn (Z.to_nat lo) l))
  = Z.min n (Z.max 0 (len l - lo)).
Proof.
  intros Hlo Hn. unfold len. rewrite length_firstn, length_skipn. lia.
Qed.

Lemma firstn_plus {A : Type} (a b : nat) (l : list A) :
  firstn (a + b) l = firstn a l ++ firstn b (skipn a l).
Proof.
  revert l. induction a as [| a IH]; intros l; [reflexivity |].
  destruct l as [| x l]; cbn; [now rewrite firstn_nil | now rewrite IH].
Qed.

(** X5: [read_wav] raises only for a frame length of zero; for every other
    request with S >= 1 it returns the samples (S-1)*L to (S-1)*L + N*L of
    the file as far as the file has them: a window that runs past the end
    comes back short, or empty, and no error tells it. *)
Theorem read_wav_window (self : IQData) (rate : Z) (data : list (Z * Z))
    (ctime : String.string) (N L S : Z) :
  (read_wav self rate data ctime N 0 S = Raise ZeroDivisionError)
  /\ (0 < L -> 0 <= N -> 1 <= S ->
      exists self' arr,
        read_wav self rate data ctime N L S = Ok self'
        /\ data_array self' = Some arr
        /\ samples arr
           = firstn (Z.to_nat (N * L)) (skipn (Z.to_nat ((S - 1) * L)) data)
        /\ len (samples arr)
           = Z.min (N * L) (Z.max 0 (len data - (S - 1) * L))
        /\ number_samples self' = len data).
Proof.
  split; [reflexivity |].
  intros HL HN HS. unfold read_wav.
  rewrite int_truediv_nonzero by lia. cbn [bind].
  eexists. eexists. split; [reflexivity |].
  cbn [data_array set_data_array samples number_samples set_date_time
       set_nframes_tot set_number_samples].
  rewrite py_slice_window by nia.
  repeat split. apply len_window; nia.
Qed.

Lemma read_wav_window_witness :
  exists self' arr,
    read_wav init 44100 [(1, -1); (2, -2); (3, -3); (4, -4); (5, -5)]
             String.EmptyString 2 2 2 = Ok self'
    /\ data_array self' = Some arr
    /\ samples arr
       = firstn (Z.to_nat (2 * 2))
           (skipn (Z.to_nat ((2 - 1) * 2))
                  [(1, -1); (2, -2); (3, -3); (4, -4); (5, -5)])
    /\ len (samples arr)
       = Z.min (2 * 2)
           (Z.max 0 (len [(1, -1); (2, -2); (3, -3); (4, -4); (5, -5)]
                     - (2 - 1) * 2))
    /\ number_samples self'
       = len [(1, -1); (2, -2); (3, -3); (4, -4); (5, -5)].
Proof.
  apply (read_wav_window init 44100
           [(1, -1); (2, -2); (3, -3); (4, -4); (5, -5)]
           String.EmptyString 2 2 2); lia.
Defined.

(** X6: the windows of [read_wav] tile the file: N1 frames from frame S
    followed by N2 frames from frame S + N1 are the N1 + N2 frames from
    frame S, also where the file ends inside them. *)
Theorem read_wav_windows_tile (self : IQData) (rate : Z)
    (data : list (Z * Z)) (ctime : String.string) (N1 N2 L S : Z) :
  0 < L -> 0 <= N1 -> 0 <= N2 -> 1 <= S ->
  exists s1 s2 s12 a1 a2 a12,
    read_wav self rate data ctime N1 L S = Ok s1
    /\ read_wav self rate data ctime N2 L (S + N1) = Ok s2
    /\ read_wav self rate data ctime (N1 + N2) L S = Ok s12
    /\ data_array s1 = Some a1
    /\ data_array s2 = Some a2
    /\ data_array s12 = Some a12
    /\ samples a12 = samples a1 ++ samples a2.
Proof.
  intros HL HN1 HN2 HS. unfold read_wav.
  rewrite int_truediv_nonzero by lia. cbn [bind].
  do 6 eexists. do 6 (split; [reflexivity |]).
  cbn [samples]. rewrite !py_slice_window by nia.
  replace (Z.to_nat ((N1 + N2) * L))
    with (Z.to_nat (N1 * L) + Z.to_nat (N2 * L))%nat by nia.
  rewrite firstn_plus, skipn_skipn. do 3 f_equal. nia.
Qed.

Lemma read_wav_windows_tile_witness :
  exists s1 s2 s12 a1 a2 a12,
    read_wav init 44100 [(1, -1); (2, -2); (3, -3); (4, -4); (5, -5)]
             String.EmptyString 1 2 2 = Ok s1
    /\ read_wav init 44100 [(1, -1); (2, -2); (3, -3); (4, -4); (5, -5)]
                String.EmptyString 1 2 (2 + 1) = Ok s2
    /\ read_wav init 44100 [(1, -1); (2, -2); (3, -3); (4, -4); (5, -5)]
                String.EmptyString (1 + 1) 2 2 = Ok s12
    /\ data_array s1 = Some a1
    /\ data_array s2 = Some a2
    /\ data_array s12 = Some a12
    /\ samples a12 = samples a1 ++ samples a2.
Proof.
  apply (read_wav_windows_tile init 44100
           [(1, -1); (2, -2); (3, -3); (4, -4); (5, -5)]
           String.EmptyString 1 1 2 2); lia.
Defined.

(** X7: for a shift [val] between 1 and the length of [x],
    [shift_cut_data_time] returns [x] without its last [val] elements and
    [x] without its first [val] elements, two arrays of the same length;
    for a shift of 0 the first array is empty and the second is all of
    [x]. *)
Theorem shift_cut_data_time_pairs {A : Type} (x : list A) (val : Z) :
  (0 < val <= len x ->
   fst (shift_cut_data_time x val) = firstn (Z.to_nat (len x - val)) x
   /\ snd (shift_cut_data_time x val) = skipn (Z.to_nat val) x
   /\ len (fst (shift_cut_data_time x val)) = len x - val
   /\ len (snd (shift_cut_data_time x val)) = len x - val)
  /\ shift_cut_data_time x 0 = ([], x).
Proof.
  split.
  - intros Hval. unfold shift_cut_data_time, py_slice, py_slice_from.
    cbn [fst snd]. unfold clip_index.
    destruct (Z.ltb_spec (- val) 0); [| lia].
    destruct (Z.ltb_spec val 0); [lia |].
    change (0 <? 0) with false. cbv iota.
    rewrite Z.min_l by apply len_nonneg.
    rewrite (Z.max_l (- val + len x)) by lia.
    rewrite (Z.min_l val) by lia.
    cbn [Z.to_nat skipn]. rewrite Z.sub_0_r.
    replace (- val + len x) with (len x - val) by lia.
    repeat split.
    + unfold len in *. rewrite length_firstn. lia.
    + unfold len in *. rewrite length_skipn. lia.
  - unfold shift_cut_data_time, py_slice, py_slice_from, clip_index.
    cbn. pose proof (len_nonneg x).
    rewrite !Z.min_l by lia. reflexivity.
Qed.

Lemma shift_cut_data_time_pairs_witness :
  (fst (shift_cut_data_time [1; 2; 3; 4; 5] 2)
   = firstn (Z.to_nat (len [1; 2; 3; 4; 5] - 2)) [1; 2; 3; 4; 5]
   /\ snd (shift_cut_data_time [1; 2; 3; 4; 5] 2)
      = skipn (Z.to_nat 2) [1; 2; 3; 4; 5]
   /\ len (fst (shift_cut_data_time [1; 2; 3; 4; 5] 2))
      = len [1; 2; 3; 4; 5] - 2
   /\ len (snd (shift_cut_data_time [1; 2; 3; 4; 5] 2))
      = len [1; 2; 3; 4; 5] - 2)
  /\ shift_cut_data_time [1; 2; 3; 4; 5] 0 = ([], [1; 2; 3; 4; 5]).
Proof.
  split.
  - apply (shift_cut_data_time_pairs [1; 2; 3; 4; 5] 2). cbn. lia.
  - apply (shift_cut_data_time_pairs [1; 2; 3; 4; 5] 0).
Defined.

(** ** [read_tcap] on every window *)

Lemma read_at_past_end (f : file) (pos n : Z) :
  size f <= pos -> read_at f pos n = [].
Proof.
  intros H. unfold read_at.
  replace (Z.max 0 (size f - pos)) with 0 by lia.
  destruct (Z.ltb_spec n 0); [reflexivity |].
  now replace (Z.min n 0) with 0 by lia.
Qed.

(** Past the end of the file the loop copies nothing more. *)
Lemma tcap_loop_past_end (f : file) (n : nat) :
  forall (pos : Z) (ba : list byte),
    size f <= pos -> snd (tcap_loop f n (pos, ba)) = ba.
Proof.
  induction n as [| n IH]; intros pos ba Hpos; [reflexivity |].
  cbn [tcap_loop]. unfold tcap_step.
  rewrite read_at_past_end
    by (destruct (pos mod 131160 =? 0); lia).
  rewrite app_nil_r. apply IH.
  unfold len. cbn [length]. destruct (pos mod 131160 =? 0); lia.
Qed.

Lemma tcap_loop_at_most (f : file) (n : nat) :
  forall (pos : Z) (ba : list byte),
    len (snd (tcap_loop f n (pos, ba))) <= len ba + Z.of_nat n.
Proof.
  induction n as [| n IH]; intros pos ba; [cbn; lia |].
  cbn [tcap_loop]. unfold tcap_step.
  set (pos' := if pos mod 131160 =? 0 then pos + 88 else pos).
  specialize (IH (pos' + len (read_at f pos' 1)) (ba ++ read_at f pos' 1)).
  rewrite len_app in IH.
  assert (len (read_at f pos' 1) <= 1) by (rewrite len_read_at; cbn; lia).
  lia.
Qed.

(** In a file of whole blocks the loop copies whole samples: started four
    bytes aligned for a number of bytes that is a multiple of four, it
    stops after a multiple of four bytes, also when it meets the end of
    the file. *)
Lemma tcap_loop_whole_samples (f : file) (blocks : Z) (n : nat) :
  size f = blocks * 131160 ->
  forall (pos : Z) (ba : list byte),
    (pos - len ba) mod 4 = 0 ->
    (len ba + Z.of_nat n) mod 4 = 0 ->
    (size f <= pos -> len ba mod 4 = 0) ->
    len (snd (tcap_loop f n (pos, ba))) mod 4 = 0.
Proof.
  intros Hsize. induction n as [| n IH]; intros pos ba Hal Hn Hend.
  - cbn. now rewrite Z.add_0_r in Hn.
  - destruct (Z.le_gt_cases (size f) pos) as [Hout | Hin].
    + rewrite tcap_loop_past_end by exact Hout. now apply Hend.
    + cbn [tcap_loop].
      assert (Hjump : (if pos mod 131160 =? 0 then pos + 88 else pos)
                      < size f).
      { destruct (Z.eqb_spec (pos mod 131160) 0);
          [Z.div_mod_to_equations; lia | lia]. }
      rewrite tcap_step_inside by exact Hjump. cbv zeta.
      assert (Hl : forall b : byte, len (ba ++ [b]) = len ba + 1)
        by (intros b; rewrite len_app; reflexivity).
      apply IH; rewrite ?Hl.
      * destruct (Z.eqb_spec (pos mod 131160) 0);
          Z.div_mod_to_equations; lia.
      * Z.div_mod_to_equations; lia.
      * intros Hnow.
        destruct (Z.eqb_spec (pos mod 131160) 0);
          Z.div_mod_to_equations; lia.
Qed.

(** X8: on a file of the size it checks, [read_tcap] raises
    [ZeroDivisionError] for [nframes = 0], whatever the window, and
    otherwise [OSError] when the seek offset [88 + 4*(S-1)*L] is negative
    (and fits 64 bits).  A request with [nframes <> 0] whose seek offset
    lies within the file never raises: it returns a buffer of at most N*L
    samples, cut short without an error where the window runs past the
    end of the file. *)
Theorem read_tcap_outcomes (self : IQData) (f : file) (N L S : Z) :
  size f = 15625 * BLOCK_SIZE ->
  (N = 0 -> read_tcap self f N L S = Raise ZeroDivisionError)
  /\ (N <> 0 -> - 2 ^ 63 <= 88 + 4 * (S - 1) * L < 0 ->
      read_tcap self f N L S = Raise OSError)
  /\ (N <> 0 -> 0 <= 88 + 4 * (S - 1) * L <= size f ->
      exists self' arr,
        read_tcap self f N L S = Ok self'
        /\ data_array self' = Some arr
        /\ len (samples arr) <= Z.max 0 (N * L)).
Proof.
  intros Hsize. unfold read_tcap.
  destruct (Z.eqb_spec (size f) (15625 * BLOCK_SIZE)) as [_ | E];
    [| contradiction].
  cbn [negb].
  destruct (parse_tcap_tfp_ok (read_at f 0 12)) as [t Ht].
  { assert (H12 := len_read_at_inside f 0 12).
    unfold len in H12. block_consts. lia. }
  rewrite Ht. cbn [bind]. split; [| split].
  - intros ->. reflexivity.
  - intros HN [_ Hneg]. rewrite int_truediv_nonzero by exact HN. cbn [bind].
    unfold tcap_copy, seek.
    destruct (Z.ltb_spec (BLOCK_HEADER_SIZE + 4 * (S - 1) * L) 0);
      [reflexivity | block_consts; lia].
  - intros HN [Hpos _]. rewrite int_truediv_nonzero by exact HN. cbn [bind].
    unfold tcap_copy, seek.
    destruct (Z.ltb_spec (BLOCK_HEADER_SIZE + 4 * (S - 1) * L) 0);
      [block_consts; lia |].
    cbn [bind].
    set (ba := snd (tcap_loop f _ _)).
    assert (Hmod : len ba mod 4 = 0).
    { unfold ba. apply (tcap_loop_whole_samples f 15625).
      - block_consts. exact Hsize.
      - unfold len. cbn [length]. block_consts.
        Z.div_mod_to_equations. lia.
      - unfold len. cbn [length]. Z.div_mod_to_equations. lia.
      - intros _. reflexivity. }
    assert (Hmost : len ba <= Z.max 0 (4 * N * L)).
    { unfold ba. etransitivity; [apply tcap_loop_at_most |].
      unfold len. cbn [length]. lia. }
    destruct (view_be_i16_length ba (len ba / 4)) as (arr & Hview & Harr).
    + pose proof (len_nonneg ba). Z.div_mod_to_equations. lia.
    + Z.div_mod_to_equations. lia.
    + unfold bind in Hview |- *.
      destruct (frombuffer_be_i16 ba) as [ints |]; [| discriminate].
      rewrite Hview. eexists. eexists. split; [reflexivity |].
      cbn [data_array set_data_array]. split; [reflexivity |].
      cbn [samples]. rewrite Harr. Z.div_mod_to_equations. nia.
Qed.

(** No frames at all; a start frame of 0; and two frames of 1024 samples
    from frame 500336 on, where 2752 bytes are left in the file. *)
Lemma read_tcap_outcomes_witness :
  read_tcap init marked_file 0 1024 1 = Raise ZeroDivisionError
  /\ read_tcap init marked_file 1 1024 0 = Raise OSError
  /\ exists self' arr,
       read_tcap init marked_file 2 1024 500336 = Ok self'
       /\ data_array self' = Some arr
       /\ len (samples arr) <= Z.max 0 (2 * 1024).
Proof.
  split; [| split].
  - apply (read_tcap_outcomes init marked_file 0 1024 1); reflexivity.
  - apply (read_tcap_outcomes init marked_file 1 1024 0);
      [reflexivity | discriminate
      | split; [vm_compute; discriminate | reflexivity]].
  - apply (read_tcap_outcomes init marked_file 2 1024 500336);
      [reflexivity | discriminate | split; vm_compute; discriminate].
Defined.

(** X9: a window of [read_tcap] that starts in the payload of the first
    block, or right behind it, and lies inside the capture is decoded from
    the payload alone: sample [j] of the buffer is the big-endian I and Q
    of the payload bytes [4*(S-1)*L + 4*j] and following, over all block
    headers the window passes. *)
Theorem read_tcap_first_block_window (self : IQData) (f : file) (N L S : Z) :
  size f = 15625 * BLOCK_SIZE ->
  0 < N -> 0 <= L -> 1 <= S ->
  4 * (S - 1) * L <= BLOCK_DATA_SIZE ->
  (S - 1 + N) * L <= 15625 * 32768 ->
  exists self',
    read_tcap self f N L S = Ok self'
    /\ data_array self'
       = Some (mkCArray
                 (pairs (be_i16_items
                           (payload_range f (4 * (S - 1) * L)
                              (Z.to_nat (4 * N * L)))))
                 (ScaleQ (625 # 10000)))
    /\ len (pairs (be_i16_items
                     (payload_range f (4 * (S - 1) * L)
                        (Z.to_nat (4 * N * L))))) = N * L.
Proof.
  intros Hsize HN HL HS Hfirst Hfit. unfold read_tcap.
  destruct (Z.eqb_spec (size f) (15625 * BLOCK_SIZE)) as [_ | E];
    [| contradiction].
  cbn [negb].
  destruct (parse_tcap_tfp_ok (read_at f 0 12)) as [t Ht].
  { assert (H12 := len_read_at_inside f 0 12).
    unfold len in H12. block_consts. lia. }
  rewrite Ht. cbn [bind].
  rewrite int_truediv_nonzero by lia. cbn [bind].
  rewrite tcap_copy_from_first_block; try (block_consts; nia).
  cbn [bind].
  set (ba := payload_range f _ _).
  assert (Hlen : len ba = 4 * (N * L)).
  { unfold ba, payload_range, len. rewrite length_map, zseq_length. nia. }
  destruct (view_be_i16_length ba (N * L)) as (arr & Hview & Harr);
    [nia | exact Hlen |].
  unfold frombuffer_be_i16, view_complex, bind in Hview |- *.
  destruct (len ba mod 2 =? 0); [| discriminate].
  destruct (len (be_i16_items ba) mod 2 =? 0); [| discriminate].
  injection Hview as <-.
  eexists. split; [reflexivity |]. split; [reflexivity | exact Harr].
Qed.

Lemma read_tcap_first_block_window_witness :
  exists self',
    read_tcap init marked_file 40 1024 1 = Ok self'
    /\ data_array self'
       = Some (mkCArray
                 (pairs (be_i16_items
                           (payload_range marked_file (4 * (1 - 1) * 1024)
                              (Z.to_nat (4 * 40 * 1024)))))
                 (ScaleQ (625 # 10000)))
    /\ len (pairs (be_i16_items
                     (payload_range marked_file (4 * (1 - 1) * 1024)
                        (Z.to_nat (4 * 40 * 1024))))) = 40 * 1024.
Proof.
  apply (read_tcap_first_block_window init marked_file 40 1024 1);
    try reflexivity; try lia; vm_compute; discriminate.
Defined.

(** ** [read_tdms] on every stream *)

Lemma py_slice_from_drop {A : Type} (k : Z) (l : list A) :
  0 <= k -> py_slice_from k l = skipn (Z.to_nat k) l.
Proof.
  intros Hk. unfold py_slice_from, clip_index.
  destruct (Z.ltb_spec k 0); [lia |].
  destruct (Z.le_gt_cases k (len l)) as [Hin | Hout].
  - now rewrite Z.min_l.
  - rewrite Z.min_r by lia.
    rewrite !skipn_all2 by (unfold len in *; lia). reflexivity.
Qed.

(** What [read_tdms] cuts out of a channel: the first record goes when the
    window starts beyond it, then the slice from the offset on. *)
Lemma tdms_cut (spr off total : Z) (jump : bool) (c : list Z) :
  0 <= spr -> 0 <= off -> 0 <= total ->
  py_slice off (off + total) (if jump then py_slice_from spr c else c)
  = firstn (Z.to_nat total)
      (skipn (Z.to_nat ((if jump then spr else 0) + off)) c).
Proof.
  intros Hspr Hoff Htot. rewrite py_slice_window by assumption.
  destruct jump.
  - rewrite py_slice_from_drop by assumption. rewrite skipn_skipn.
    do 2 f_equal. lia.
  - reflexivity.
Qed.

Lemma combine_repeat {A B : Type} (a : A) (b : B) (n : nat) :
  combine (repeat a n) (repeat b n) = repeat (a, b) n.
Proof. induction n as [| n IH]; [reflexivity | cbn; now rewrite IH]. Qed.

Lemma hd_firstn_skipn {A : Type} (d : A) (n k : nat) (l : list A) :
  (0 < n)%nat -> hd d (firstn n (skipn k l)) = nth k l d.
Proof.
  intros Hn. revert l. induction k as [| k IH]; intros l.
  - destruct n; [lia |]. destruct l; reflexivity.
  - destruct l as [| x l]; [| apply IH].
    cbn [skipn]. rewrite firstn_nil. reflexivity.
Qed.

(** X10: [read_tdms] hands back a full window or none.  For a request
    that passes the record test, with channels of equal length and a
    gain: when the channels reach to the end of the window it returns its
    N*L samples; when they hold one sample only from the start of the
    window on, that sample comes back N*L times and no error tells it, a
    single element being broadcast; when they end before the window in
    any other way it raises [ValueError]. *)
Theorem read_tdms_short_channels (self : IQData) (stream : tdms_stream)
    (N L S : Z) (w : window) (ii qq : list Z) (g : Q) (gains : list Q) :
  0 < tdms_nSamplesPerRecord self -> 0 < L -> 0 < N -> 1 <= S ->
  (S - 1 + N) * L < 2 ^ 53 ->
  tdms_window (tdms_nSamplesPerRecord self) N L S = Ok w ->
  start_record w + n_records w <= tdms_nRecordsPerFile self ->
  stream (start_record w)
         (tdms_first_rec_size self
          + (start_record w + n_records w - 2) * tdms_other_rec_size self)
    = mkRaw (Some ii) (Some qq) (Some (g :: gains)) ->
  len qq = len ii ->
  let skip :=
    (if start_record w >? 1 then tdms_nSamplesPerRecord self else 0)
    + starting_sample_within_start_record w in
  let left := Z.max 0 (len ii - skip) in
  let window_of (channel : list Z) :=
    firstn (Z.to_nat (N * L)) (skipn (Z.to_nat skip) channel) in
  (N * L <= left ->
   exists self',
     read_tdms self stream N L S = Ok self'
     /\ data_array self'
        = Some (mkCArray (combine (window_of ii) (window_of qq)) (ScaleQ g))
     /\ len (combine (window_of ii) (window_of qq)) = N * L)
  /\ (left = 1 -> 1 < N * L ->
      exists self',
        read_tdms self stream N L S = Ok self'
        /\ data_array self'
           = Some (mkCArray
                     (repeat (nth (Z.to_nat skip) ii 0,
                              nth (Z.to_nat skip) qq 0)
                             (Z.to_nat (N * L)))
                     (ScaleQ g)))
  /\ (left < N * L -> left <> 1 ->
      read_tdms self stream N L S = Raise ValueError).
Proof.
  intros Hspr HL HN HS _ Hw Hfit Hraw Hqq skip left window_of.
  destruct (tdms_window_bounds _ N L S w Hspr
              (Z.lt_le_incl _ _ HL) (Z.lt_le_incl _ _ HN) HS Hw)
    as (Htot & Htot0 & Hoff & _ & _ & _).
  rewrite (read_tdms_unfold self stream N L S w Hw).
  unfold tdms_too_much.
  destruct (Z.gtb_spec (start_record w + n_records w)
              (tdms_nRecordsPerFile self)); [lia |].
  unfold tdms_convert.
  cbn [set_nframes set_lframes tdms_nSamplesPerRecord tdms_first_rec_size
       tdms_other_rec_size].
  rewrite Hraw. cbn [rd_I rd_Q rd_gain lookup bind index0].
  rewrite !tdms_cut by lia.
  rewrite Htot. fold skip. fold (window_of ii) (window_of qq).
  assert (Hskip : 0 <= skip)
    by (unfold skip; destruct (start_record w >? 1); lia).
  assert (Hlen : forall c : list Z,
            len c = len ii -> len (window_of c) = Z.min (N * L) left).
  { intros c Hc. unfold window_of, left. rewrite <- Hc.
    apply len_window; lia. }
  assert (HlI := Hlen ii eq_refl). assert (HlQ := Hlen qq Hqq).
  unfold interleave.
  destruct (Z.ltb_spec (N * L) 0); [lia |].
  unfold assign_channel. rewrite HlI, HlQ.
  split; [| split].
  - intros Hfull. rewrite Z.min_l by exact Hfull.
    rewrite Z.eqb_refl. cbn [bind].
    eexists. split; [reflexivity |]. split; [reflexivity |].
    apply len_combine; [rewrite HlI | rewrite HlQ]; lia.
  - intros Hone Hmore. rewrite Hone, Z.min_r by lia.
    destruct (Z.eqb_spec 1 (N * L)); [lia |].
    cbn [Z.eqb Pos.eqb bind]. rewrite combine_repeat.
    unfold window_of. rewrite !hd_firstn_skipn by lia.
    eexists. split; reflexivity.
  - intros Hshort Hnot. rewrite Z.min_r by lia.
    destruct (Z.eqb_spec left (N * L)); [lia |].
    destruct (Z.eqb_spec left 1); [contradiction | reflexivity].
Qed.

(** Two frames of two samples from frame 4 on of [ten_records], with all
    records parsed, with seven samples and with eight samples in the
    channels. *)
Lemma read_tdms_short_channels_witness :
  (exists self',
     read_tdms ten_records ramp_stream 2 2 4 = Ok self'
     /\ data_array self'
        = Some (mkCArray [(6, -6); (7, -7); (8, -8); (9, -9)]
                         (ScaleQ (1 # 2)))
     /\ len [(6, -6); (7, -7); (8, -8); (9, -9)] = 2 * 2)
  /\ (exists self',
        read_tdms ten_records (cut_stream 7) 2 2 4 = Ok self'
        /\ data_array self'
           = Some (mkCArray [(6, -6); (6, -6); (6, -6); (6, -6)]
                            (ScaleQ (1 # 2))))
  /\ read_tdms ten_records (cut_stream 8) 2 2 4 = Raise ValueError.
Proof.
  split; [| split].
  - destruct (read_tdms_short_channels ten_records ramp_stream 2 2 4
                (mkWindow 4 6 2 2 2)
                [0; 1; 2; 3; 4; 5; 6; 7; 8; 9; 10; 11]
                [0; -1; -2; -3; -4; -5; -6; -7; -8; -9; -10; -11]
                (1 # 2)%Q []) as (Hfull & _ & _);
      [try reflexivity; vm_compute; discriminate ..
      | apply Hfull; vm_compute; discriminate].
  - destruct (read_tdms_short_channels ten_records (cut_stream 7) 2 2 4
                (mkWindow 4 6 2 2 2)
                [0; 1; 2; 3; 4; 5; 6] [0; -1; -2; -3; -4; -5; -6]
                (1 # 2)%Q []) as (_ & Hone & _);
      [try reflexivity; vm_compute; discriminate ..
      | apply Hone; reflexivity].
  - destruct (read_tdms_short_channels ten_records (cut_stream 8) 2 2 4
                (mkWindow 4 6 2 2 2)
                [0; 1; 2; 3; 4; 5; 6; 7] [0; -1; -2; -3; -4; -5; -6; -7]
                (1 # 2)%Q []) as (_ & _ & Hshort);
      [try reflexivity; vm_compute; discriminate ..
      | apply Hshort; [reflexivity | discriminate]].
Defined.

Lemma read_tdms_window_of_file_witness :
  read_tdms ten_records ramp_stream 2 2 4
  = Ok (set_data_array
          (Some (mkCArray [(6, -6); (7, -7); (8, -8); (9, -9)]
                          (ScaleQ (1 # 2))))
          (set_scale (ScaleQ (1 # 2))
             (set_nframes 2 (set_lframes 2 ten_records)))).
Proof.
  apply (read_tdms_window_of_file ten_records ramp_stream 2 2 4
           (mkWindow 4 6 2 2 2) (zseq 0 40) (map Z.opp (zseq 0 40))
           (1 # 2)%Q []);
    try reflexivity; try lia; vm_compute; discriminate.
Defined.

Lemma lookup_raises {A : Type} (o : option A) (e : exn) :
  lookup o = Raise e -> e = KeyError.
Proof. destruct o; [discriminate | now intros [= <-]]. Qed.

Lemma index0_raises {A : Type} (l : list A) (e : exn) :
  index0 l = Raise e -> e = IndexError.
Proof. destruct l; [now intros [= <-] | discriminate]. Qed.

Lemma interleave_raises (n : Z) (ii qq : list Z) (e : exn) :
  interleave n ii qq = Raise e -> e = ValueError.
Proof.
  unfold interleave, assign_channel.
  repeat match goal with
         | |- context [if ?c then _ else _] => destruct c; cbn [bind]
         end;
    first [discriminate | now intros [= <-]].
Qed.

(** X12: [read_tdms] raises [ZeroDivisionError] exactly when the
    reader was not probed, [tdms_nSamplesPerRecord] being 0 as [__init__]
    leaves it; then it does so for every request and every file. *)
Theorem read_tdms_before_probe (self : IQData) (stream : tdms_stream)
    (N L S : Z) :
  read_tdms self stream N L S = Raise ZeroDivisionError
  <-> tdms_nSamplesPerRecord self = 0.
Proof.
  split.
  - intros H.
    destruct (Z.eq_dec (tdms_nSamplesPerRecord self) 0) as [E | E];
      [exact E | exfalso].
    assert (Hw : exists w,
               tdms_window (tdms_nSamplesPerRecord self) N L S = Ok w).
    { unfold tdms_window, py_mod.
      rewrite !int_truediv_nonzero by exact E. cbn [bind].
      destruct (Z.eqb_spec (tdms_nSamplesPerRecord self) 0);
        [contradiction |].
      cbn [bind]. rewrite int_truediv_nonzero by exact E.
      eexists. reflexivity. }
    destruct Hw as [w Hw].
    rewrite (read_tdms_unfold self stream N L S w Hw) in H.
    destruct (tdms_too_much w _); [discriminate |].
    unfold tdms_convert in H.
    destruct (lookup (rd_I _)) as [ii |] eqn:EI; cbn [bind] in H;
      [| injection H as ->; apply lookup_raises in EI; discriminate].
    destruct (lookup (rd_Q _)) as [qq |] eqn:EQ; cbn [bind] in H;
      [| injection H as ->; apply lookup_raises in EQ; discriminate].
    destruct (interleave _ _ _) as [arr |] eqn:Earr; cbn [bind] in H;
      [| injection H as ->; apply interleave_raises in Earr; discriminate].
    destruct (lookup (rd_gain _)) as [gain |] eqn:EG; cbn [bind] in H;
      [| injection H as ->; apply lookup_raises in EG; discriminate].
    destruct (index0 gain) as [g0 |] eqn:E0; cbn [bind] in H;
      [discriminate
      | injection H as ->; apply index0_raises in E0; discriminate].
  - intros H. unfold read_tdms, tdms_window, int_truediv.
    cbn [set_nframes set_lframes tdms_nSamplesPerRecord].
    rewrite H. reflexivity.
Qed.

Lemma read_tdms_before_probe_witness :
  read_tdms init both_records 10 1024 1 = Raise ZeroDivisionError.
Proof.
  apply (read_tdms_before_probe init both_records 10 1024 1). reflexivity.
Defined.

(** ** The bytes behind the samples of [read_tiq] and [read_iqt] *)

Lemma zseq_app (s : Z) (a b : nat) :
  zseq s (a + b) = zseq s a ++ zseq (s + Z.of_nat a) b.
Proof.
  revert s. induction a as [| a IH]; intros s.
  - cbn. now rewrite Z.add_0_r.
  - cbn [Nat.add zseq app]. rewrite IH. do 3 f_equal. lia.
Qed.

Lemma zseq_8 (p : Z) :
  zseq p 8 = [p; p + 1; p + 2; p + 3; p + 4; p + 5; p + 6; p + 7].
Proof. cbn. repeat (f_equal; try lia). Qed.

Lemma zseq_4 (p : Z) : zseq p 4 = [p; p + 1; p + 2; p + 3].
Proof. cbn. repeat (f_equal; try lia). Qed.

Lemma firstn_zseq (s : Z) (a b : nat) : firstn a (zseq s (a + b)) = zseq s a.
Proof.
  rewrite zseq_app, firstn_app, zseq_length, Nat.sub_diag.
  cbn [firstn]. rewrite app_nil_r. apply firstn_all2.
  now rewrite zseq_length.
Qed.

Lemma skipn_zseq (s : Z) (a b : nat) :
  skipn a (zseq s (a + b)) = zseq (s + Z.of_nat a) b.
Proof.
  rewrite zseq_app, skipn_app, zseq_length, Nat.sub_diag.
  cbn [skipn]. rewrite skipn_all2 by now rewrite zseq_length.
  reflexivity.
Qed.

(** The samples of [8 * k] bytes of a TIQ file from sample [j0] on. *)
Lemma tiq_samples_of_bytes (f : file) (off : Z) (k : nat) :
  forall j0 : Z,
    pairs (le_i32_items (map (byte_at f) (zseq (off + 8 * j0) (8 * k))))
    = map (tiq_sample f off) (zseq j0 k).
Proof.
  induction k as [| k IH]; intros j0; [reflexivity |].
  replace (8 * S k)%nat with (8 + 8 * k)%nat by lia.
  rewrite zseq_app, zseq_8, map_app.
  cbn [map app le_i32_items pairs zseq].
  change (Z.of_nat 8) with 8.
  replace (off + 8 * j0 + 8) with (off + 8 * (j0 + 1)) by lia.
  rewrite IH. reflexivity.
Qed.

(** The samples of [4 * m] bytes of IQT frame data from sample [j0] on. *)
Lemma iqt_samples_of_bytes (f : file) (q : Z) (m : nat) :
  forall j0 : Z,
    swap_pairs (map (byte_at f) (zseq (q + 4 * j0) (4 * m)))
    = map (fun j => iqt_sample f (q + 4 * j)) (zseq j0 m).
Proof.
  induction m as [| m IH]; intros j0; [reflexivity |].
  replace (4 * S m)%nat with (4 + 4 * m)%nat by lia.
  rewrite zseq_app, zseq_4, map_app.
  cbn [map app swap_pairs zseq].
  change (Z.of_nat 4) with 4.
  replace (q + 4 * j0 + 4) with (q + 4 * (j0 + 1)) by lia.
  rewrite IH. reflexivity.
Qed.

Lemma frame_samples_of_bytes (f : file) (off i : Z) :
  frame_samples (map (byte_at f) (zseq (off + frame_itemsize * i) 4120))
  = iqt_frame f off i.
Proof.
  unfold frame_samples, iqt_frame.
  change (Z.to_nat frame_header_itemsize) with 24%nat.
  rewrite skipn_map.
  change 4120%nat with (24 + 4 * 1024)%nat at 1.
  rewrite skipn_zseq. change (Z.of_nat 24) with frame_header_itemsize.
  pose proof (iqt_samples_of_bytes f
                (off + frame_itemsize * i + frame_header_itemsize) 1024 0)
    as H.
  rewrite Z.mul_0_r, Z.add_0_r in H. exact H.
Qed.

Lemma frames_samples_of_bytes (f : file) (off : Z) (k : nat) :
  forall i0 : Z,
    frames_samples k
      (map (byte_at f) (zseq (off + frame_itemsize * i0) (4120 * k)))
    = flat_map (iqt_frame f off) (zseq i0 k).
Proof.
  induction k as [| k IH]; intros i0; [reflexivity |].
  replace (4120 * S k)%nat with (4120 + 4120 * k)%nat by lia.
  cbn [frames_samples zseq flat_map].
  change (Z.to_nat frame_itemsize) with 4120%nat.
  rewrite firstn_map, skipn_map, firstn_zseq, skipn_zseq.
  rewrite frame_samples_of_bytes. f_equal.
  change (Z.of_nat 4120) with frame_itemsize.
  replace (off + frame_itemsize * i0 + frame_itemsize)
    with (off + frame_itemsize * (i0 + 1)) by lia.
  apply IH.
Qed.

Lemma read_at_window (f : file) (pos n : Z) :
  0 <= n ->
  read_at f pos n
  = map (byte_at f)
        (zseq pos (Z.to_nat (Z.min n (Z.max 0 (size f - pos))))).
Proof.
  intros Hn. unfold read_at.
  destruct (Z.ltb_spec n 0); [lia | reflexivity].
Qed.

(** X14: on a file that holds [T] samples after its header, for a window
    that starts within these samples and is no longer than all of them,
    [read_tiq] returns the samples (S-1)*L to (S-1)*L + N*L as far as the
    file has them, sample [j] being the little-endian 32-bit I and Q at
    byte [data_offset + 8*j]; a window that runs past the end comes back
    short, or empty, without an error.  The sampling frequency after the
    header is not zero, and [T] and the number of samples of the header
    are below 2^53. *)
Theorem read_tiq_window (self : IQData) (f : file) (x : tiq_xml)
    (N L S T : Z) :
  ~ (tiq_fs self x == 0)%Q ->
  Z.abs (tiq_number_samples self x) < 2 ^ 53 ->
  0 < L -> 0 < N -> 1 <= S ->
  0 <= tiq_data_offset x -> 0 <= T < 2 ^ 53 ->
  size f = tiq_data_offset x + 8 * T ->
  (S - 1) * L <= T -> N * L <= T ->
  exists self' arr,
    read_tiq self f x N L S = Ok self'
    /\ data_array self' = Some arr
    /\ samples arr
       = map (tiq_sample f (tiq_data_offset x))
             (zseq ((S - 1) * L)
                (Z.to_nat (Z.min (N * L) (T - (S - 1) * L))))
    /\ len (samples arr) = Z.min (N * L) (T - (S - 1) * L).
Proof.
  intros Hfs Hns HL HN HS Hoff HT Hsize Hstart Hlong.
  destruct (read_tiq_unfold self f x N L S) as (s & _ & ->).
  assert (H53 : 2 ^ 53 < 2 ^ 62) by reflexivity.
  assert (H62 : 2 ^ 62 < 2 ^ 63) by reflexivity.
  rewrite !int_div_float_ok
    by (try apply fits_float_below; try nia; exact Hfs).
  cbn [bind]. rewrite int_truediv_nonzero by lia. cbn [bind]. unfold seek.
  destruct (Z.ltb_spec (tiq_data_offset x + 8 * (S - 1) * L) 0); [nia |].
  cbn [bind]. rewrite read_n_inside by nia. cbn [bind].
  rewrite read_at_window by nia.
  set (k := Z.to_nat (Z.min (N * L) (T - (S - 1) * L))).
  replace (Z.to_nat _) with (8 * k)%nat by (unfold k; nia).
  replace (tiq_data_offset x + 8 * (S - 1) * L)
    with (tiq_data_offset x + 8 * ((S - 1) * L)) by lia.
  set (ba := map (byte_at f) _).
  assert (Hlen : length ba = (4 * (2 * k))%nat)
    by (unfold ba; rewrite length_map, zseq_length; lia).
  unfold fromstring_le_i32.
  replace (len ba mod 4) with 0
    by (unfold len; rewrite Hlen; Z.div_mod_to_equations; lia).
  cbn [Z.eqb bind]. unfold view_complex.
  replace (len (le_i32_items ba) mod 2) with 0
    by (unfold len; rewrite (le_i32_items_length _ _ Hlen);
        Z.div_mod_to_equations; lia).
  cbn [Z.eqb bind]. eexists. eexists. split; [reflexivity |].
  cbn [data_array set_data_array]. split; [reflexivity |].
  cbn [samples]. unfold ba. rewrite tiq_samples_of_bytes.
  split; [reflexivity |].
  unfold len. rewrite length_map, zseq_length. unfold k. lia.
Qed.

(** Two frames of four samples from frame 2 on, in a file of ten samples:
    six samples come back. *)
Lemma read_tiq_window_witness :
  exists self' arr,
    read_tiq init (counting_file (100 + 8 * 10)) tiq_4096 2 4 2 = Ok self'
    /\ data_array self' = Some arr
    /\ samples arr
       = map (tiq_sample (counting_file (100 + 8 * 10))
                (tiq_data_offset tiq_4096))
             (zseq ((2 - 1) * 4)
                (Z.to_nat (Z.min (2 * 4) (10 - (2 - 1) * 4))))
    /\ len (samples arr) = Z.min (2 * 4) (10 - (2 - 1) * 4).
Proof.
  apply (read_tiq_window init (counting_file (100 + 8 * 10)) tiq_4096
           2 4 2 10); try reflexivity; try lia; vm_compute; discriminate.
Defined.

(** X15: for a frame length within the range of a float, [read_tiq]
    raises [ZeroDivisionError] exactly when the sampling frequency after
    the header is zero, be it given as 0 by the XML header or absent there
    with the reader's own [fs] at 0 as [__init__] leaves it, or when
    [lframes] is 0: a new reader cannot read a file whose header has no
    sampling frequency. *)
Theorem read_tiq_zero_division (self : IQData) (f : file) (x : tiq_xml)
    (N L S : Z) :
  Z.abs L < 2 ^ 1024 - 2 ^ 970 ->
  read_tiq self f x N L S = Raise ZeroDivisionError
  <-> ((tiq_fs self x == 0)%Q \/ L = 0).
Proof.
  intros HLfit.
  assert (Hfit : fits_float L = true) by (now apply Z.ltb_lt).
  assert (Hdiv : forall (n : Z) (q : Q),
            ~ (q == 0)%Q -> int_div_float n q <> Raise ZeroDivisionError).
  { intros n q Hq. unfold int_div_float.
    destruct (fits_float n); cbn [negb]; [| discriminate].
    destruct (Qeq_bool q 0) eqn:E; [| discriminate].
    apply Qeq_bool_iff in E. contradiction. }
  destruct (read_tiq_unfold self f x N L S) as (s & _ & ->).
  unfold int_div_float at 1. rewrite Hfit. cbn [negb].
  destruct (Qeq_bool (tiq_fs self x) 0) eqn:E.
  - cbn [bind]. split; [| reflexivity].
    intros _. left. now apply Qeq_bool_iff.
  - assert (Hfs : ~ (tiq_fs self x == 0)%Q).
    { intros H. apply Qeq_bool_iff in H. congruence. }
    cbn [bind]. split.
    + intros H. right.
      destruct (Z.eq_dec L 0) as [E0 | E0]; [exact E0 | exfalso].
      rewrite int_truediv_nonzero in H by exact E0. cbn [bind] in H.
      repeat match type of H with
             | bind (int_div_float ?n ?q) _ = _ =>
                 let E' := fresh "E" in
                 destruct (int_div_float n q) eqn:E'; cbn [bind] in H;
                 [| injection H as ->; exact (Hdiv n q Hfs E')]
             end.
      unfold seek in H.
      destruct (_ <? 0); cbn [bind] in H; [discriminate |].
      unfold read_n in H.
      destruct (_ <? -1); cbn [bind] in H; [discriminate |].
      destruct (_ <=? _); cbn [bind] in H; [discriminate |].
      unfold fromstring_le_i32 in H.
      destruct (_ =? 0); cbn [bind] in H; [| discriminate].
      unfold view_complex in H.
      destruct (_ =? 0); discriminate.
    + intros [H | ->]; [contradiction | reflexivity].
Qed.

Lemma read_tiq_zero_division_witness :
  read_tiq init tiq_4096_file tiq_no_fs 2 1024 1 = Raise ZeroDivisionError
  /\ read_tiq init tiq_4096_file tiq_4096 2 0 1 = Raise ZeroDivisionError.
Proof.
  split.
  - apply (read_tiq_zero_division init tiq_4096_file tiq_no_fs 2 1024 1);
      [reflexivity |].
    left. reflexivity.
  - apply (read_tiq_zero_division init tiq_4096_file tiq_4096 2 0 1);
      [reflexivity |].
    right. reflexivity.
Defined.

(** X13: on an IQT file of [F] whole frames, below 2^53 bytes, whose
    header gives a FrameLength that is not zero and FFTPoints within the
    range of a float, a request of at most F frames that starts at a frame
    of the file, or right behind the last one, returns 1024*N samples
    whatever [lframes] is: frame by frame the samples of the frames S-1 to
    S-1+N that the file has, each taken from the 4096 data bytes behind
    the 24 bytes of the frame header with I read from the bytes after Q,
    and zeros for the frames past the end of the file. *)
Theorem read_iqt_frames (self : IQData) (f : file) (h : iqt_header)
    (N L S F : Z) :
  ~ (FrameLength h == 0)%Q ->
  Z.abs (FFTPoints h) < 2 ^ 1024 - 2 ^ 970 ->
  0 <= N -> 1 <= S -> 0 <= iqt_data_offset h -> 0 <= F ->
  size f = iqt_data_offset h + frame_itemsize * F ->
  size f < 2 ^ 53 ->
  S - 1 <= F -> N <= F ->
  let k := Z.min N (F - (S - 1)) in
  exists self' arr,
    read_iqt self f h N L S = Ok self'
    /\ data_array self' = Some arr
    /\ samples arr
       = flat_map (iqt_frame f (iqt_data_offset h))
                  (zseq (S - 1) (Z.to_nat k))
         ++ repeat (0, 0) (Z.to_nat (1024 * (N - k)))
    /\ len (samples arr) = 1024 * N.
Proof.
  intros Hfl Hfft HN HS Hoff HF Hsize Hbig Hstart Hlong k. unfold read_iqt.
  rewrite int_div_float_ok
    by (try assumption; unfold fits_float; now apply Z.ltb_lt).
  cbn [bind].
  destruct (Z.ltb_spec (1024 * N) 0); [lia |].
  unfold seek.
  destruct (Z.ltb_spec (iqt_data_offset h + (S - 1) * frame_itemsize) 0);
    [frame_consts; lia |].
  cbn [bind].
  assert (H53 : 2 ^ 53 < 2 ^ 62) by reflexivity.
  rewrite read_n_inside by (frame_consts; lia). cbn [bind].
  rewrite read_at_window by (frame_consts; lia).
  replace (Z.to_nat (Z.min (N * frame_itemsize) _))
    with (4120 * Z.to_nat k)%nat by (unfold k; frame_consts; lia).
  replace (iqt_data_offset h + (S - 1) * frame_itemsize)
    with (iqt_data_offset h + frame_itemsize * (S - 1)) by lia.
  set (ba := map (byte_at f) _).
  assert (Hlen : len ba = frame_itemsize * k).
  { unfold ba, len. rewrite length_map, zseq_length.
    unfold k. frame_consts. lia. }
  rewrite Hlen.
  replace (frame_itemsize * k mod frame_itemsize) with 0
    by (frame_consts; Z.div_mod_to_equations; lia).
  replace (frame_itemsize * k / frame_itemsize) with k
    by (frame_consts; Z.div_mod_to_equations; lia).
  cbn [Z.eqb negb]. unfold ba. rewrite frames_samples_of_bytes.
  assert (Hgot : length (flat_map (iqt_frame f (iqt_data_offset h))
                           (zseq (S - 1) (Z.to_nat k)))
                 = (1024 * Z.to_nat k)%nat).
  { generalize (S - 1). generalize (Z.to_nat k) as m.
    induction m as [| m IH]; intros i0; [reflexivity |].
    cbn [zseq flat_map]. rewrite length_app, IH.
    unfold iqt_frame. rewrite length_map, zseq_length. lia. }
  eexists. eexists. split; [reflexivity |].
  cbn [data_array set_data_array]. split; [reflexivity |].
  cbn [samples]. rewrite Hgot. split.
  - do 2 f_equal. unfold k. lia.
  - unfold len. rewrite length_app, repeat_length, Hgot. unfold k. lia.
Qed.

(** Two frames from frame 2 on, in a file of two frames: the second frame
    and 1024 zeros. *)
Lemma read_iqt_frames_witness :
  exists self' arr,
    read_iqt init (counting_file (100 + 4120 * 2)) iqt_two_frames 2 512 2
      = Ok self'
    /\ data_array self' = Some arr
    /\ samples arr
       = flat_map (iqt_frame (counting_file (100 + 4120 * 2))
                     (iqt_data_offset iqt_two_frames))
                  (zseq (2 - 1)
                     (Z.to_nat (Z.min 2 (2 - (2 - 1)))))
         ++ repeat (0, 0)
              (Z.to_nat (1024 * (2 - Z.min 2 (2 - (2 - 1)))))
    /\ len (samples arr) = 1024 * 2.
Proof.
  apply (read_iqt_frames init (counting_file (100 + 4120 * 2))
           iqt_two_frames 2 512 2 2);
    try reflexivity; try lia; vm_compute; discriminate.
Defined.

(** ** [parse_tcap_tfp] on every register *)

Lemma parse_tcap_tfp_exact_witness :
  exists t,
    parse_tcap_tfp register_024_06_20_04 = Ok t
    /\ days t = lo_digit x00 * 100 + hi_digit x24 * 10 + lo_digit x24
    /\ hours t = hi_digit x06 * 10 + lo_digit x06
    /\ minutes t = hi_digit x20 * 10 + lo_digit x20
    /\ seconds t
       = (inject_Z (hi_digit x04 * 10 + lo_digit x04)
          + inject_Z (hi_digit x02) * (1 # 10)
          + inject_Z (lo_digit x02) * (1 # 100)
          + inject_Z (hi_digit x04) * (1 # 1000)
          + inject_Z (lo_digit x04) * (1 # 10000)
          + inject_Z (hi_digit x06) * (1 # 100000)
          + inject_Z (lo_digit x06) * (1 # 1000000)
          + inject_Z (hi_digit x00) * (1 # 10000000))%Q
    /\ ts_epoch t
       = (seconds t
          + inject_Z (60 * (minutes t + 60 * (hours t + 24 * days t))))%Q.
Proof.
  apply (parse_tcap_tfp_exact x00 x00 x00 x00 x24 x06 x20 x04 x02 x04 x06
           x00).
  - cbn [used_digits skipn]. repeat constructor; vm_compute; discriminate.
  - repeat constructor.
Defined.

Lemma nib_upper_range (b : byte) : 0 <= nib (byte_val b) 4 <= 7.
Proof.
  rewrite nib_upper. pose proof (Z.mod_pos_bound (hi_digit b) 8). lia.
Qed.

Lemma nib_lower_range (b : byte) : 0 <= nib (byte_val b) 0 <= 23.
Proof.
  rewrite nib_lower.
  pose proof (Z.mod_pos_bound (lo_digit b) 8).
  pose proof (Z.mod_pos_bound (hi_digit b) 2). lia.
Qed.

Lemma parse_tcap_tfp_digits (b0 b1 b2 b3 b4 b5 b6 b7 b8 b9 b10 b11 : byte)
    (rest : list byte) :
  parse_tcap_tfp
    (b0 :: b1 :: b2 :: b3 :: b4 :: b5 :: b6 :: b7 :: b8 :: b9 :: b10 :: b11
        :: rest)
  = Ok (tfp_of_digits
          (nib (byte_val b3) 0)
          (nib (byte_val b4) 4) (nib (byte_val b4) 0)
          (nib (byte_val b5) 4) (nib (byte_val b5) 0)
          (nib (byte_val b6) 4) (nib (byte_val b6) 0)
          (nib (byte_val b7) 4) (nib (byte_val b7) 0)
          (nib (byte_val b8) 4) (nib (byte_val b8) 0)
          (nib (byte_val b9) 4) (nib (byte_val b9) 0)
          (nib (byte_val b10) 4) (nib (byte_val b10) 0)
          (nib (byte_val b11) 4)).
Proof. reflexivity. Qed.

Lemma tfp_of_digits_range (dh dt du ht hu mt mu st su
                           sem1 sem2 sem3 sem4 sem5 sem6 sem7 : Z) :
  0 <= dh <= 23 -> 0 <= dt <= 7 -> 0 <= du <= 23 ->
  0 <= ht <= 7 -> 0 <= hu <= 23 -> 0 <= mt <= 7 -> 0 <= mu <= 23 ->
  0 <= st <= 7 -> 0 <= su <= 23 ->
  0 <= sem1 <= 7 -> 0 <= sem2 <= 23 -> 0 <= sem3 <= 7 -> 0 <= sem4 <= 23 ->
  0 <= sem5 <= 7 -> 0 <= sem6 <= 23 -> 0 <= sem7 <= 7 ->
  let t := tfp_of_digits dh dt du ht hu mt mu st su
             sem1 sem2 sem3 sem4 sem5 sem6 sem7 in
  0 <= days t <= 2393
  /\ 0 <= hours t <= 93
  /\ 0 <= minutes t <= 93
  /\ (0 <= seconds t)%Q /\ (seconds t < 94)%Q
  /\ (0 <= ts_epoch t)%Q /\ (ts_epoch t < 207095674)%Q.
Proof.
  intros. unfold t, tfp_of_digits.
  cbn [days hours minutes seconds ts_epoch].
  assert (Hq : forall z m : Z,
             0 <= z <= m ->
             (0 <= inject_Z z)%Q /\ (inject_Z z <= inject_Z m)%Q).
  { intros z m [Hz0 Hzm]. split.
    - change 0%Q with (inject_Z 0). now rewrite <- Zle_Qle.
    - now rewrite <- Zle_Qle. }
  assert (Hsec : 0 <= st * 10 + su <= 93) by lia.
  assert (Hrest : 0 <= 60 * (mt * 10 + mu
                             + 60 * (ht * 10 + hu
                                     + 24 * (dh * 100 + dt * 10 + du)))
                  <= 207095580) by lia.
  split; [lia |]. split; [lia |]. split; [lia |].
  apply Hq in Hsec, Hrest.
  revert Hsec Hrest.
  generalize (inject_Z (st * 10 + su)).
  generalize (inject_Z (60 * (mt * 10 + mu
                              + 60 * (ht * 10 + hu
                                      + 24 * (dh * 100 + dt * 10 + du))))).
  intros qrest qsec Hsec Hrest.
  repeat match goal with
         | H : 0 <= ?z <= ?m |- _ =>
             apply Hq in H; revert H; generalize (inject_Z z); intros ? H
         end.
  change (inject_Z 7) with 7%Q in *. change (inject_Z 23) with 23%Q in *.
  change (inject_Z 93) with 93%Q in *.
  change (inject_Z 207095580) with 207095580%Q in *.
  repeat split; lra.
Qed.

(** X17: whatever the register holds, [parse_tcap_tfp] decodes a time of
    at most 2393 days, 93 hours, 93 minutes and less than 94 seconds, so
    that the epoch value it formats is never negative and stays below
    207095674 seconds: the result is always a date of the years 1970 to
    1976. *)
Theorem parse_tcap_tfp_range (ba : list byte) (t : tfp_time) :
  parse_tcap_tfp ba = Ok t ->
  0 <= days t <= 2393
  /\ 0 <= hours t <= 93
  /\ 0 <= minutes t <= 93
  /\ (0 <= seconds t)%Q /\ (seconds t < 94)%Q
  /\ (0 <= ts_epoch t)%Q /\ (ts_epoch t < 207095674)%Q.
Proof.
  intros H.
  destruct (Nat.lt_ge_cases (length ba) 12) as [Hshort | Hlong].
  { do 12 (destruct ba as [| ? ba]; [discriminate |]). cbn in Hshort. lia. }
  do 12 (destruct ba as [| ? ba]; [cbn in Hlong; lia |]).
  rewrite parse_tcap_tfp_digits in H.
  assert (E : forall a b : tfp_time, Ok a = Ok b -> a = b)
    by (intros a b0' Hab; congruence).
  apply E in H. subst t.
  apply tfp_of_digits_range;
    first [apply nib_upper_range | apply nib_lower_range].
Qed.

Lemma parse_tcap_tfp_range_witness :
  let t := tfp_of_digits 0 0 5 1 18 3 16 4 5 1 18 3 20 5 22 7 in
  0 <= days t <= 2393
  /\ 0 <= hours t <= 93
  /\ 0 <= minutes t <= 93
  /\ (0 <= seconds t)%Q /\ (seconds t < 94)%Q
  /\ (0 <= ts_epoch t)%Q /\ (ts_epoch t < 207095674)%Q.
Proof.
  apply (parse_tcap_tfp_range register_005_12_30_45). reflexivity.
Defined.
